(** * ember-test-helpers: [setup-onerror.ts] and [dom/focus.ts]

    A shallow embedding of the two helpers and the properties the
    specification states about them.

    - [Onerror] follows [setup-onerror.ts]: the per-context cache of
      [Ember.onerror] and the functions [setupOnerror], [resetOnerror],
      [_prepareOnerror] and [_cleanupOnerror].
    - [DomFocus] follows [dom/focus.ts]: the internal routine [__focus__] and
      the public helper [focus], a promise chain of three [then] stages. *)

From stdpp Require Import gmap strings list.

(** ** JavaScript values shared by both files *)

(** [new Error(message)]. *)
Inductive JsError : Type :=
| Error (message : string).

#[global] Instance JsError_eq_dec : EqDecision JsError.
Proof. solve_decision. Defined.

(** How a synchronous call ends: it returns a value or it throws. *)
Inductive Completion (A : Type) : Type :=
| Return (a : A)
| Throw (e : JsError).
Arguments Return {A} a.
Arguments Throw {A} e.

(** ** [setup-onerror.ts] *)

Module Onerror.

(** A test context is a JavaScript object; the [Map] compares keys by
    identity, so a context is its identity. *)
Definition BaseContext : Type := nat.

(** An error handler is a function object, again known by identity.
    A value of type [option Handler] is a handler or [undefined]. *)
Definition Handler : Type := nat.

(** The module-level state the file reads and writes:
    - [context]: what [getContext()] returns ([None] is [undefined]);
    - [Ember_onerror]: the global slot [Ember.onerror];
    - [cachedOnerror]: the module's [Map<BaseContext, handler | undefined>]. *)
Record State : Type := mkState {
  context : option BaseContext;
  Ember_onerror : option Handler;
  cachedOnerror : gmap BaseContext (option Handler);
}.

Definition set_onerror (h : option Handler) (s : State) : State :=
  {| context := context s; Ember_onerror := h; cachedOnerror := cachedOnerror s |}.

Definition set_cache (m : gmap BaseContext (option Handler)) (s : State) : State :=
  {| context := context s; Ember_onerror := Ember_onerror s; cachedOnerror := m |}.

(** Synchronous code over [State] that may throw. *)
Definition Exec (A : Type) : Type := State -> Completion A * State.

Definition ret {A} (a : A) : Exec A := fun s => (Return a, s).
Definition throw {A} (e : JsError) : Exec A := fun s => (Throw e, s).
Definition bind {A B} (m : Exec A) (k : A -> Exec B) : Exec B :=
  fun s =>
    match m s with
    | (Return a, s') => k a s'
    | (Throw e, s') => (Throw e, s')
    end.
Definition gets {A} (f : State -> A) : Exec A := fun s => (Return (f s), s).
Definition modify (f : State -> State) : Exec unit := fun s => (Return tt, f s).

Declare Scope exec_scope.
Delimit Scope exec_scope with exec.
Notation "x <- m ;; k" := (bind m (fun x => k))
  (at level 100, m at next level, right associativity) : exec_scope.
Notation "m ;;; k" := (bind m (fun _ => k))
  (at level 100, right associativity) : exec_scope.
Local Open Scope exec_scope.

(** [getContext()] of [setup-context], which is imported: it reads the
    current context. *)
Definition getContext : Exec (option BaseContext) := gets context.

Definition msg_no_context : string :=
  "Must setup test context before calling setupOnerror".
Definition msg_not_cached : string :=
  "_cacheOriginalOnerror must be called before setupOnerror. Normally, this will happen as part of your test harness.".
Definition msg_prepare_twice : string :=
  "_prepareOnerror should only be called once per-context".

(** [setupOnerror(onError?)]. The argument is a function or not one
    ([typeof onError !== 'function']); [None] stands for every value that
    is not a function, [undefined] included. *)
Definition setupOnerror (onError : option Handler) : Exec unit :=
  context <- getContext ;;
  match context with
  | None => throw (Error msg_no_context)
  | Some context =>
      cache <- gets cachedOnerror ;;
      match cache !! context with
      | None => throw (Error msg_not_cached)
      | Some cached =>
          let onError :=
            match onError with
            | Some f => Some f
            | None => cached
            end in
          modify (set_onerror onError)
      end
  end.

(** [export const resetOnerror: Function = setupOnerror;], called without
    an argument. *)
Definition resetOnerror : Exec unit := setupOnerror None.

(** [_prepareOnerror(context)]. *)
Definition _prepareOnerror (context : BaseContext) : Exec unit :=
  cache <- gets cachedOnerror ;;
  match cache !! context with
  | Some _ => throw (Error msg_prepare_twice)
  | None =>
      current <- gets Ember_onerror ;;
      modify (set_cache (<[context := current]> cache))
  end.

(** [_cleanupOnerror(context)]. *)
Definition _cleanupOnerror (context : BaseContext) : Exec unit :=
  resetOnerror ;;;
  modify (fun s => set_cache (delete context (cachedOnerror s)) s).

End Onerror.

(** ** [dom/focus.ts] *)

Module DomFocus.

(** A DOM node ([HTMLElement | Element | Document | SVGElement]), known by
    identity: [document.activeElement !== element] compares identities. *)
Definition Element : Type := nat.

(** [Target] of [./-target]: what a caller may pass to [focus]. The two
    JavaScript values [null] and [undefined] are kept apart from a
    selector string and from a node. *)
Inductive Target : Type :=
| TNull
| TUndefined
| TSelector (selector : string)
| TNode (element : Element).

#[global] Instance Target_eq_dec : EqDecision Target.
Proof. solve_decision. Defined.

(** JavaScript truthiness of a target, as [!target] reads it: [null],
    [undefined] and the empty string are falsy. *)
Definition truthy (target : Target) : bool :=
  match target with
  | TNull | TUndefined => false
  | TSelector s => negb (String.eqb s "")
  | TNode _ => true
  end.

(** What the helpers do that an observer of the page can see, in order. *)
Inductive Effect : Type :=
| HooksRun (helper label : string) (target : Target)
    (* runHooks(helper, label, target) starts *)
| Log (helper : string) (target : Target)
    (* log(helper, target) *)
| Blur (element : Element) (relatedTarget : option Element)
    (* __blur__(element, relatedTarget) *)
| NativeFocus (element : Element)
    (* element.focus() *)
| FireEvent (element : Element) (type : string) (bubbles : option bool)
    (* fireEvent(element, type, { bubbles }) *)
| AwaitSettled.
    (* settled() is called and awaited *)

#[global] Instance Effect_eq_dec : EqDecision Effect.
Proof. solve_decision. Defined.

Definition Trace : Type := list Effect.

(** The state the helpers read and write:
    - [activeElement]: [document.activeElement] ([None] is [null]);
    - [hasFocus]: [None] when [document.hasFocus] is not defined, else
      what [document.hasFocus()] returns;
    - [counters]: the named pending counters of the application. *)
Record Env : Type := mkEnv {
  activeElement : option Element;
  hasFocus : option bool;
  counters : gmap string nat;
}.

Definition set_activeElement (a : option Element) (env : Env) : Env :=
  {| activeElement := a; hasFocus := hasFocus env; counters := counters env |}.

Definition set_counters (c : gmap string nat) (env : Env) : Env :=
  {| activeElement := activeElement env; hasFocus := hasFocus env; counters := c |}.

(** How a promise ends: fulfilled, rejected, or still pending when the
    observer stops waiting. *)
Inductive Settlement (A : Type) : Type :=
| Fulfilled (a : A)
| Rejected (e : JsError)
| Pending.
Arguments Fulfilled {A} a.
Arguments Rejected {A} e.
Arguments Pending {A}.

(** Synchronous code: it returns or throws, changes the state and leaves
    a trace. *)
Definition Sync (A : Type) : Type := Env -> Completion A * Env * Trace.

(** A promise, as the deferred computation that settles it. *)
Definition Promise (A : Type) : Type := Env -> Settlement A * Env * Trace.

Definition ret {A} (a : A) : Sync A := fun env => (Return a, env, []).
Definition throw {A} (e : JsError) : Sync A := fun env => (Throw e, env, []).
Definition bind {A B} (m : Sync A) (k : A -> Sync B) : Sync B :=
  fun env =>
    match m env with
    | (Return a, env1, t1) =>
        let '(r, env2, t2) := k a env1 in (r, env2, t1 ++ t2)
    | (Throw e, env1, t1) => (Throw e, env1, t1)
    end.
Definition gets {A} (f : Env -> A) : Sync A := fun env => (Return (f env), env, []).
Definition modify (f : Env -> Env) : Sync unit := fun env => (Return tt, f env, []).
Definition emit (e : Effect) : Sync unit := fun env => (Return tt, env, [e]).

Declare Scope sync_scope.
Delimit Scope sync_scope with sync.
Notation "x <- m ;; k" := (bind m (fun x => k))
  (at level 100, m at next level, right associativity) : sync_scope.
Notation "m ;;; k" := (bind m (fun _ => k))
  (at level 100, right associativity) : sync_scope.
Local Open Scope sync_scope.

(** [Promise.resolve()]. *)
Definition Promise_resolve : Promise unit := fun env => (Fulfilled tt, env, []).

(** [promise.then(callback)]: the callback runs once [promise] is
    fulfilled; a throw inside it rejects the new promise, and a promise it
    returns is adopted. A rejected [promise] skips the callback. *)
Definition then_ {A B} (p : Promise A) (callback : A -> Sync (Promise B)) : Promise B :=
  fun env =>
    match p env with
    | (Fulfilled a, env1, t1) =>
        match callback a env1 with
        | (Return q, env2, t2) =>
            let '(r, env3, t3) := q env2 in (r, env3, t1 ++ t2 ++ t3)
        | (Throw e, env2, t2) => (Rejected e, env2, t1 ++ t2)
        end
    | (Rejected e, env1, t1) => (Rejected e, env1, t1)
    | (Pending, env1, t1) => (Pending, env1, t1)
    end.

(** A hook callback, called with the target and awaited. *)
Definition Hook : Type := Target -> Promise unit.

(** A synchronous callback seen as a hook. *)
Definition sync_hook (body : Target -> Sync unit) : Hook :=
  fun target env =>
    match body target env with
    | (Return _, env1, t1) => (Fulfilled tt, env1, t1)
    | (Throw e, env1, t1) => (Rejected e, env1, t1)
    end.

(** What [focus.ts] imports and the page under test provides:
    - [isFocusable]: the predicate of [./-is-focusable];
    - [getElement]: the lookup of [./-get-element], which returns a node
      or [null] ([None]), or throws;
    - [elementToString]: the string a node turns into inside a template
      literal;
    - [listeners]: what the page's event listeners do to the state when a
      DOM effect reaches them;
    - [tick]: one turn of the application's run loop;
    - [pendingPredicates]: the registered has-pending-requests predicates;
    - [userHooks]: the hooks the test registered, per helper and label, in
      registration order. *)
Class Collaborators : Type := {
  isFocusable : Element -> bool;
  getElement : Target -> Completion (option Element);
  elementToString : Element -> string;
  listeners : Effect -> Env -> Env;
  tick : Env -> Env;
  pendingPredicates : list (Env -> bool);
  userHooks : string -> string -> list Hook;
}.

Section WithCollaborators.
Context `{C : Collaborators}.

(** [`${target}`]. *)
Definition targetToString (target : Target) : string :=
  match target with
  | TNull => "null"
  | TUndefined => "undefined"
  | TSelector s => s
  | TNode e => elementToString e
  end.

(** A DOM effect: it is seen, and the page's listeners react to it. *)
Definition dom_effect (e : Effect) : Sync unit :=
  fun env => (Return tt, listeners e env, [e]).

(** Modelled from the spec: [log] of [dom/-logging], which is imported;
    it reports the helper and its target and changes nothing. *)
Definition log (helper : string) (target : Target) : Sync unit :=
  emit (Log helper target).

(** Modelled from the spec: [fireEvent] of [./fire-event], the
    synthetic event dispatch of the DOM collaborator. *)
Definition fireEvent (element : Element) (type : string) (bubbles : option bool) : Sync unit :=
  dom_effect (FireEvent element type bubbles).

(** Modelled from the spec: [__blur__] of [./blur], which synthesizes a
    blur on [element] with the given [relatedTarget]. *)
Definition __blur__ (element : Element) (relatedTarget : option Element) : Sync unit :=
  dom_effect (Blur element relatedTarget).

(** [element.focus()]: "makes [document.activeElement] be [element]". *)
Definition native_focus (element : Element) : Sync unit :=
  modify (set_activeElement (Some element)) ;;;
  dom_effect (NativeFocus element).

(** [registerHook('focus', 'start', (target) => { log('focus', target); })],
    run when the module is loaded, so before any hook of the test. *)
Definition focus_start_hook : Hook := sync_hook (log "focus").

Definition registeredHooks (helper label : string) : list Hook :=
  (if String.eqb helper "focus" && String.eqb label "start"
   then [focus_start_hook] else [])
  ++ userHooks helper label.

(** The hooks one after the other, each awaited; the first that fails
    ends the run. *)
Fixpoint run_in_order (hooks : list Hook) (target : Target) : Promise unit :=
  match hooks with
  | [] => Promise_resolve
  | hook :: rest =>
      fun env =>
        match hook target env with
        | (Fulfilled _, env1, t1) =>
            let '(r, env2, t2) := run_in_order rest target env1 in
            (r, env2, t1 ++ t2)
        | (Rejected e, env1, t1) => (Rejected e, env1, t1)
        | (Pending, env1, t1) => (Pending, env1, t1)
        end
  end.

(** Modelled from the spec: [runHooks] of [-internal/helper-hooks]. It
    "invokes every still-registered callback for that (label,phase) in
    registration order, awaiting each in sequence", and "if a hook
    callback throws/rejects" it fails at once, "skipping remaining
    hooks". *)
Definition runHooks (helper label : string) (target : Target) : Promise unit :=
  fun env =>
    let '(r, env1, t1) := run_in_order (registeredHooks helper label) target env in
    (r, env1, HooksRun helper label target :: t1).

(** Modelled from the spec: [isSettled] of [settled.ts]. "True iff every
    counter in PendingCounters for the relevant instance is zero AND no
    registered has-pending-requests predicate reports work
    outstanding." *)
Definition isSettled (env : Env) : bool :=
  bool_decide (map_Forall (fun _ n => n = 0) (counters env))
  && forallb (fun reports => negb (reports env)) pendingPredicates.

(** The polling of [settled]: the application runs a turn, then the
    evaluator is asked; [fuel] bounds how many turns the observer
    waits. *)
Fixpoint poll (fuel : nat) (env : Env) : Settlement unit * Env :=
  match fuel with
  | O => (Pending, env)
  | S fuel' =>
      let env' := tick env in
      if isSettled env' then (Fulfilled tt, env') else poll fuel' env'
  end.

(** The state after [n] turns of the run loop. *)
Fixpoint turns (n : nat) (env : Env) : Env :=
  match n with
  | O => env
  | S n' => turns n' (tick env)
  end.

(** Modelled from the spec: [settled] of [settled.ts]. It never resolves
    synchronously ("resolves on the next microtask"), and resolves "the
    first time [isSettled()] becomes true". *)
Definition settled (fuel : nat) : Promise unit :=
  fun env => let '(r, env') := poll fuel env in (r, env', [AwaitSettled]).

Definition msg_missing_target : string :=
  "Must pass an element or selector to `focus`.".

Definition msg_not_found (target : Target) : string :=
  "Element not found when calling `focus('" +:+ targetToString target +:+ "')`.".

Definition msg_not_focusable (element : Element) : string :=
  elementToString element +:+ " is not focusable".

(** [__focus__(element)]. *)
Definition __focus__ (element : Element) : Sync unit :=
  active <- gets activeElement ;;
  let previousFocusedElement :=
    match active with
    | Some a =>
        if bool_decide (a <> element) && isFocusable a then Some a else None
    | None => None
    end in
  if negb (isFocusable element) then
    match previousFocusedElement with
    | Some previous => __blur__ previous None
    | None => ret tt
    end
  else
    has <- gets hasFocus ;;
    let browserIsNotFocused :=
      match has with
      | Some focused => negb focused
      | None => false
      end in
    match previousFocusedElement with
    | Some previous =>
        if browserIsNotFocused then __blur__ previous (Some element) else ret tt
    | None => ret tt
    end ;;;
    native_focus element ;;;
    if browserIsNotFocused then
      fireEvent element "focus" (Some false) ;;;
      fireEvent element "focusin" None
    else ret tt.

(** The second [then] callback of [focus]: the checks on the target, the
    DOM mutation, and the promise of [settled()] that it returns. *)
Definition focus_stage (fuel : nat) (target : Target) : Sync (Promise unit) :=
  if negb (truthy target) then throw (Error msg_missing_target)
  else
    fun env =>
      match getElement target with
      | Throw e => (Throw e, env, [])
      | Return None => (Throw (Error (msg_not_found target)), env, [])
      | Return (Some element) =>
          if negb (isFocusable element)
          then (Throw (Error (msg_not_focusable element)), env, [])
          else (__focus__ element ;;; ret (settled fuel)) env
      end.

(** The promise [focus(target)] returns. *)
Definition focus_promise (fuel : nat) (target : Target) : Promise unit :=
  then_
    (then_
       (then_ Promise_resolve
          (fun _ => ret (runHooks "focus" "start" target)))
       (fun _ => focus_stage fuel target))
    (fun _ => ret (runHooks "focus" "end" target)).

(** [focus(target)]: the call itself only builds the promise chain. *)
Definition focus (fuel : nat) (target : Target) : Sync (Promise unit) :=
  ret (focus_promise fuel target).

(** The three ways an input of [focus] is invalid: the target is
    missing, its lookup finds no element, or the element found is not
    focusable. *)
Definition invalid_input (target : Target) : Prop :=
  truthy target = false \/
  (truthy target = true /\ getElement target = Return None) \/
  (truthy target = true /\
   exists element,
     getElement target = Return (Some element) /\ isFocusable element = false).

(** The [end] hooks of [focus] leave a settled application settled. *)
Definition end_hooks_keep_settled (target : Target) : Prop :=
  forall env env' t,
    isSettled env = true ->
    runHooks "focus" "end" target env = (Fulfilled tt, env', t) ->
    isSettled env' = true.

End WithCollaborators.

End DomFocus.

(** ** Concrete pages, to run the model on *)

Module Pages.
Import DomFocus.

(** Three nodes: two inputs and a plain [div]. *)
Definition inputA : Element := 1.
Definition inputB : Element := 2.
Definition plainDiv : Element := 3.

Definition page_isFocusable (e : Element) : bool :=
  bool_decide (e = inputA) || bool_decide (e = inputB).

Definition page_getElement (target : Target) : Completion (option Element) :=
  match target with
  | TNull | TUndefined => Throw (Error "Must use an element or a selector string")
  | TSelector s =>
      if String.eqb s "#a" then Return (Some inputA)
      else if String.eqb s "#b" then Return (Some inputB)
      else if String.eqb s "div" then Return (Some plainDiv)
      else Return None
  | TNode e => Return (Some e)
  end.

Definition page_elementToString (e : Element) : string :=
  if page_isFocusable e then "[object HTMLInputElement]" else "[object HTMLDivElement]".

Definition increment (name : string) (env : Env) : Env :=
  set_counters (<[name := S (default 0 (counters env !! name))]> (counters env)) env.

(** A [focusin] listener schedules a render pass. *)
Definition page_listeners (e : Effect) (env : Env) : Env :=
  match e with
  | FireEvent _ type _ =>
      if String.eqb type "focusin" then increment "pending runloop passes" env else env
  | _ => env
  end.

(** Each turn of the run loop finishes one operation of every kind. *)
Definition page_tick (env : Env) : Env :=
  set_counters (Nat.pred <$> counters env) env.

(** The page, with no hook registered by the test. *)
Definition quietPage : Collaborators := {|
  isFocusable := page_isFocusable;
  getElement := page_getElement;
  elementToString := page_elementToString;
  listeners := page_listeners;
  tick := page_tick;
  pendingPredicates := [];
  userHooks := fun _ _ => [];
|}.

(** An [end] hook of [focus] that starts a timer and does not wait for it. *)
Definition timer_hook : Hook :=
  sync_hook (fun _ => modify (increment "pending timers")).

(** The same page, with that hook registered. *)
Definition hookedPage : Collaborators := {|
  isFocusable := page_isFocusable;
  getElement := page_getElement;
  elementToString := page_elementToString;
  listeners := page_listeners;
  tick := page_tick;
  pendingPredicates := [];
  userHooks := fun helper label =>
    if String.eqb helper "focus" && String.eqb label "end" then [timer_hook] else [];
|}.

(** The window is not focused and [inputA] holds the focus. *)
Definition env_A_unfocused : Env :=
  {| activeElement := Some inputA; hasFocus := Some false; counters := ∅ |}.

(** Two timers are pending. *)
Definition env_busy : Env :=
  {| activeElement := None; hasFocus := Some true;
     counters := {[ "pending timers" := 2 ]} |}.

(** The window is focused and nothing holds the focus. *)
Definition env_idle : Env :=
  {| activeElement := None; hasFocus := Some true; counters := ∅ |}.

End Pages.

(** ** Concrete states of [setup-onerror.ts], to run the model on *)

Module Harness.
Import Onerror.

(** No test context is set up; the application installed handler [7]. *)
Definition outside_test : State :=
  {| context := None; Ember_onerror := Some 7; cachedOnerror := ∅ |}.

(** Context [1] is current but [_prepareOnerror] has not run for it. *)
Definition unprepared : State :=
  {| context := Some 1; Ember_onerror := Some 7; cachedOnerror := ∅ |}.

(** Context [2] is current and nested in context [1]; handler [7] was
    cached for [1], handler [8] for [2], and the test installed [9]. *)
Definition nested : State :=
  {| context := Some 2; Ember_onerror := Some 9;
     cachedOnerror := <[2 := Some 8]> (<[1 := Some 7]> ∅) |}.

End Harness.

(** ** Runs of the [setup-onerror.ts] interface *)

Module OnerrorRuns.
Import Onerror.
Local Open Scope exec_scope.

(** A test that calls [setupOnerror] several times in a row, with the
    arguments of [handlers] in order. *)
Fixpoint setupOnerror_each (handlers : list (option Handler)) : Exec unit :=
  match handlers with
  | [] => ret tt
  | onError :: rest => setupOnerror onError ;;; setupOnerror_each rest
  end.

(** One call of a function the file exports. *)
Inductive Call : Type :=
| CallSetupOnerror (onError : option Handler)
| CallResetOnerror
| CallPrepareOnerror (context : BaseContext)
| CallCleanupOnerror (context : BaseContext).

Definition run_call (call : Call) : Exec unit :=
  match call with
  | CallSetupOnerror onError => setupOnerror onError
  | CallResetOnerror => resetOnerror
  | CallPrepareOnerror context => _prepareOnerror context
  | CallCleanupOnerror context => _cleanupOnerror context
  end.

(** The one key of [cachedOnerror] a call is given, if any. *)
Definition call_key (call : Call) : option BaseContext :=
  match call with
  | CallSetupOnerror _ | CallResetOnerror => None
  | CallPrepareOnerror context | CallCleanupOnerror context => Some context
  end.

End OnerrorRuns.

(** ** Notions about a page, for [dom/focus.ts] *)

Module FocusNotions.
Import DomFocus.

(** The listeners of [element.focus()] and of the [focus] and [focusin]
    events do not move the focus themselves. Nothing is asked of what a
    blur does to the focus. *)
Definition focus_listeners_keep_activeElement `{C : Collaborators} : Prop :=
  forall x env,
    activeElement (listeners (NativeFocus x) env) = activeElement env /\
    forall type bubbles,
      activeElement (listeners (FireEvent x type bubbles) env) = activeElement env.

(** The error the second [then] callback of [focus] throws for an invalid
    input: one error per way of being invalid. *)
Definition validation_error `{C : Collaborators} (target : Target) (e : JsError) : Prop :=
  (truthy target = false /\
   e = Error "Must pass an element or selector to `focus`.") \/
  (truthy target = true /\ getElement target = Return None /\
   e = Error ("Element not found when calling `focus('"
              +:+ targetToString target +:+ "')`.")) \/
  (truthy target = true /\
   exists element,
     getElement target = Return (Some element) /\
     isFocusable element = false /\
     e = Error (elementToString element +:+ " is not focusable")).

(** The window does not have focus: [document.hasFocus] exists and returns
    [false]. This is [browserIsNotFocused] of [__focus__]. *)
Definition browserIsNotFocused (env : Env) : bool :=
  match hasFocus env with
  | Some focused => negb focused
  | None => false
  end.

(** The window is not focused, [inputA] holds the focus and three timers
    are pending. *)
Definition env_A_busy : Env :=
  {| activeElement := Some Pages.inputA; hasFocus := Some false;
     counters := {[ "pending timers" := 3 ]} |}.

(** The window is focused and [inputA] holds the focus. *)
Definition env_A_focused : Env :=
  {| activeElement := Some Pages.inputA; hasFocus := Some true; counters := ∅ |}.

(** The window is not focused and [inputB] holds the focus. *)
Definition env_B_unfocused : Env :=
  {| activeElement := Some Pages.inputB; hasFocus := Some false; counters := ∅ |}.

End FocusNotions.

(** ** Pages with hooks or listeners that interfere *)

Module HookPages.
Import DomFocus Pages.

(** A [start] hook of [focus] that throws. *)
Definition failing_hook : Hook :=
  sync_hook (fun _ => throw (Error "boom")).

(** A [start] hook of [focus] whose promise never settles. *)
Definition hanging_hook : Hook :=
  fun _ env => (Pending, env, []).

Definition start_hook_page (hook : Hook) : Collaborators := {|
  isFocusable := page_isFocusable;
  getElement := page_getElement;
  elementToString := page_elementToString;
  listeners := page_listeners;
  tick := page_tick;
  pendingPredicates := [];
  userHooks := fun helper label =>
    if String.eqb helper "focus" && String.eqb label "start" then [hook] else [];
|}.

(** The page of [Pages], with the failing hook registered. *)
Definition throwingPage : Collaborators := start_hook_page failing_hook.

(** The page of [Pages], with the hanging hook registered. *)
Definition hangingPage : Collaborators := start_hook_page hanging_hook.

(** A blur takes the focus away from every element, as [element.blur()]
    does; other listeners do as on the page of [Pages]. *)
Definition blurring_listeners (e : Effect) (env : Env) : Env :=
  match e with
  | Blur _ _ => set_activeElement None env
  | _ => page_listeners e env
  end.

Definition blurringPage : Collaborators := {|
  isFocusable := page_isFocusable;
  getElement := page_getElement;
  elementToString := page_elementToString;
  listeners := blurring_listeners;
  tick := page_tick;
  pendingPredicates := [];
  userHooks := fun _ _ => [];
|}.

End HookPages.

(** * Properties of [setup-onerror.ts] *)

Module OnerrorFacts.
Import Onerror Harness.

Lemma setupOnerror_no_context onError s :
  context s = None ->
  setupOnerror onError s = (Throw (Error msg_no_context), s).
Proof.
  intros Hctx. unfold setupOnerror, bind, getContext, gets, throw.
  now rewrite Hctx.
Qed.

Lemma setupOnerror_not_cached onError s c :
  context s = Some c ->
  cachedOnerror s !! c = None ->
  setupOnerror onError s = (Throw (Error msg_not_cached), s).
Proof.
  intros Hctx Hcache. unfold setupOnerror, bind, getContext, gets, throw.
  rewrite Hctx. cbn. now rewrite Hcache.
Qed.

Lemma setupOnerror_cached onError s c cached :
  context s = Some c ->
  cachedOnerror s !! c = Some cached ->
  setupOnerror onError s =
    (Return tt, set_onerror (match onError with Some f => Some f | None => cached end) s).
Proof.
  intros Hctx Hcache. unfold setupOnerror, bind, getContext, gets, modify.
  rewrite Hctx. cbn. now rewrite Hcache.
Qed.

Lemma _prepareOnerror_fresh s c :
  cachedOnerror s !! c = None ->
  _prepareOnerror c s =
    (Return tt, set_cache (<[c := Ember_onerror s]> (cachedOnerror s)) s).
Proof.
  intros Hcache. unfold _prepareOnerror, bind, gets, modify. cbn.
  now rewrite Hcache.
Qed.

(** C8. Called with no test context set up, or for a context whose
    original handler [_prepareOnerror] has not cached yet, [setupOnerror]
    (and so [resetOnerror]) throws a usage error and leaves the whole
    state, [Ember.onerror] included, as it was. *)
Theorem setupOnerror_throws_outside_prepared_context onError s :
  context s = None \/
  (exists c, context s = Some c /\ cachedOnerror s !! c = None) ->
  exists message,
    (message = "Must setup test context before calling setupOnerror" \/
     message = "_cacheOriginalOnerror must be called before setupOnerror. Normally, this will happen as part of your test harness.") /\
    setupOnerror onError s = (Throw (Error message), s) /\
    resetOnerror s = (Throw (Error message), s).
Proof.
  intros [Hctx | (c & Hctx & Hcache)].
  - exists msg_no_context. split; [now left |].
    unfold resetOnerror. now rewrite !setupOnerror_no_context.
  - exists msg_not_cached. split; [now right |].
    unfold resetOnerror. now rewrite !(setupOnerror_not_cached _ s c).
Qed.

Lemma setupOnerror_throws_outside_prepared_context_witness :
  (exists message,
     (message = "Must setup test context before calling setupOnerror" \/
      message = "_cacheOriginalOnerror must be called before setupOnerror. Normally, this will happen as part of your test harness.") /\
     setupOnerror (Some 5) outside_test = (Throw (Error message), outside_test) /\
     resetOnerror outside_test = (Throw (Error message), outside_test)) /\
  (exists message,
     (message = "Must setup test context before calling setupOnerror" \/
      message = "_cacheOriginalOnerror must be called before setupOnerror. Normally, this will happen as part of your test harness.") /\
     setupOnerror (Some 5) unprepared = (Throw (Error message), unprepared) /\
     resetOnerror unprepared = (Throw (Error message), unprepared)).
Proof.
  split.
  - apply (setupOnerror_throws_outside_prepared_context (Some 5) outside_test).
    left. reflexivity.
  - apply (setupOnerror_throws_outside_prepared_context (Some 5) unprepared).
    right. exists 1. split; reflexivity.
Defined.

(** C9. The handler in place when a context is prepared is stored in the
    map under that context, and no other entry changes; [resetOnerror],
    which is [setupOnerror] without a function, sets [Ember.onerror] to
    exactly the value stored for the current context and changes nothing
    else. *)
Theorem resetOnerror_restores_value_cached_for_context :
  (forall s c,
      cachedOnerror s !! c = None ->
      exists s1,
        _prepareOnerror c s = (Return tt, s1) /\
        cachedOnerror s1 !! c = Some (Ember_onerror s) /\
        (forall c', c' <> c -> cachedOnerror s1 !! c' = cachedOnerror s !! c') /\
        Ember_onerror s1 = Ember_onerror s /\
        context s1 = context s) /\
  (forall s c cached,
      context s = Some c ->
      cachedOnerror s !! c = Some cached ->
      exists s1,
        resetOnerror s = (Return tt, s1) /\
        Ember_onerror s1 = cached /\
        cachedOnerror s1 = cachedOnerror s /\
        context s1 = context s).
Proof.
  split.
  - intros s c Hcache. eexists. split; [now apply _prepareOnerror_fresh |].
    cbn. split; [apply lookup_insert_eq |].
    split; [| now split].
    intros c' Hne. now apply lookup_insert_ne.
  - intros s c cached Hctx Hcache. eexists.
    split; [unfold resetOnerror; now apply (setupOnerror_cached None s c cached) |].
    now cbn.
Qed.

Lemma resetOnerror_restores_value_cached_for_context_witness :
  (exists s1,
      _prepareOnerror 1 unprepared = (Return tt, s1) /\
      cachedOnerror s1 !! 1 = Some (Some 7)) /\
  (exists s1,
      resetOnerror nested = (Return tt, s1) /\ Ember_onerror s1 = Some 8).
Proof.
  split.
  - destruct (proj1 resetOnerror_restores_value_cached_for_context unprepared 1)
      as (s1 & Hrun & Hlook & _); [reflexivity |].
    exists s1. split; [exact Hrun | exact Hlook].
  - destruct (proj2 resetOnerror_restores_value_cached_for_context nested 2 (Some 8))
      as (s1 & Hrun & Hval & _); [reflexivity | reflexivity |].
    exists s1. split; [exact Hrun | exact Hval].
Defined.

End OnerrorFacts.

(** * Properties of [dom/focus.ts] *)

Module FocusFacts.
Import DomFocus Pages FocusNotions HookPages.

Section WithCollaborators.
Context `{C : Collaborators}.

(** *** The promise chain, stage by stage *)

Lemma runHooks_trace helper label target env r env1 t :
  runHooks helper label target env = (r, env1, t) ->
  exists t', t = HooksRun helper label target :: t'.
Proof.
  unfold runHooks.
  destruct (run_in_order _ target env) as [[r' env'] t'].
  intros [= _ _ <-]. now exists t'.
Qed.

Lemma focus_promise_start_rejected fuel target env e env1 t1 :
  runHooks "focus" "start" target env = (Rejected e, env1, t1) ->
  focus_promise fuel target env = (Rejected e, env1, t1).
Proof.
  intros Hstart. unfold focus_promise, then_, Promise_resolve, ret.
  now rewrite Hstart.
Qed.

Lemma focus_promise_start_pending fuel target env env1 t1 :
  runHooks "focus" "start" target env = (Pending, env1, t1) ->
  focus_promise fuel target env = (Pending, env1, t1).
Proof.
  intros Hstart. unfold focus_promise, then_, Promise_resolve, ret.
  now rewrite Hstart.
Qed.

Lemma focus_promise_stage_throws fuel target env env1 t1 e env2 t2 :
  runHooks "focus" "start" target env = (Fulfilled tt, env1, t1) ->
  focus_stage fuel target env1 = (Throw e, env2, t2) ->
  focus_promise fuel target env = (Rejected e, env2, t1 ++ t2).
Proof.
  intros Hstart Hstage. unfold focus_promise, then_, Promise_resolve, ret.
  rewrite Hstart. cbn. now rewrite Hstage.
Qed.

Lemma focus_promise_stage_returns fuel target env env1 t1 q env2 t2 r3 env3 t3 :
  runHooks "focus" "start" target env = (Fulfilled tt, env1, t1) ->
  focus_stage fuel target env1 = (Return q, env2, t2) ->
  q env2 = (r3, env3, t3) ->
  focus_promise fuel target env =
    match r3 with
    | Fulfilled _ =>
        let '(r4, env4, t4) := runHooks "focus" "end" target env3 in
        (r4, env4, t1 ++ t2 ++ t3 ++ t4)
    | Rejected e => (Rejected e, env3, t1 ++ t2 ++ t3)
    | Pending => (Pending, env3, t1 ++ t2 ++ t3)
    end.
Proof.
  intros Hstart Hstage Hq. unfold focus_promise, then_, Promise_resolve, ret.
  rewrite Hstart. cbn. rewrite Hstage, Hq.
  destruct r3 as [[] | e |]; try reflexivity.
  destruct (runHooks "focus" "end" target env3) as [[r4 env4] t4].
  cbn. now rewrite <- !app_assoc.
Qed.

(** *** The checks of the second stage *)

Lemma focus_stage_missing fuel target env :
  truthy target = false ->
  focus_stage fuel target env = (Throw (Error msg_missing_target), env, []).
Proof. intros Hfalsy. unfold focus_stage. now rewrite Hfalsy. Qed.

Lemma focus_stage_lookup_throws fuel target env e :
  truthy target = true ->
  getElement target = Throw e ->
  focus_stage fuel target env = (Throw e, env, []).
Proof. intros Htruthy Hget. unfold focus_stage. now rewrite Htruthy, Hget. Qed.

Lemma focus_stage_not_found fuel target env :
  truthy target = true ->
  getElement target = Return None ->
  focus_stage fuel target env = (Throw (Error (msg_not_found target)), env, []).
Proof. intros Htruthy Hget. unfold focus_stage. now rewrite Htruthy, Hget. Qed.

Lemma focus_stage_not_focusable fuel target env element :
  truthy target = true ->
  getElement target = Return (Some element) ->
  isFocusable element = false ->
  focus_stage fuel target env =
    (Throw (Error (msg_not_focusable element)), env, []).
Proof.
  intros Htruthy Hget Hfoc. unfold focus_stage.
  now rewrite Htruthy, Hget, Hfoc.
Qed.

Lemma focus_stage_valid fuel target env element env2 t2 :
  truthy target = true ->
  getElement target = Return (Some element) ->
  isFocusable element = true ->
  __focus__ element env = (Return tt, env2, t2) ->
  focus_stage fuel target env = (Return (settled fuel), env2, t2).
Proof.
  intros Htruthy Hget Hfoc Hdom. unfold focus_stage.
  rewrite Htruthy, Hget, Hfoc. cbn. unfold bind. rewrite Hdom.
  cbn. now rewrite app_nil_r.
Qed.

(** [__focus__] always returns: nothing in it throws. *)
Lemma __focus___returns element env :
  exists env' t, __focus__ element env = (Return tt, env', t).
Proof.
  unfold __focus__, bind, gets, __blur__, native_focus, fireEvent,
    dom_effect, modify, ret.
  cbv beta iota.
  destruct (activeElement env) as [a |];
    [destruct (bool_decide (a <> element) && isFocusable a) |];
    (destruct (isFocusable element); cbn; [| now eauto]);
    destruct (hasFocus env) as [[] |]; cbn; eauto.
Qed.

(** A throw of the second stage changes nothing and leaves no trace. *)
Lemma focus_stage_throw_inert fuel target env e env2 t2 :
  focus_stage fuel target env = (Throw e, env2, t2) ->
  env2 = env /\ t2 = [].
Proof.
  unfold focus_stage. destruct (truthy target); cbn.
  - destruct (getElement target) as [[element |] | e'].
    + destruct (isFocusable element) eqn:Hfoc; cbn.
      * destruct (__focus___returns element env) as (env3 & t3 & Hdom).
        unfold bind. rewrite Hdom. cbn. intros H. discriminate H.
      * now intros [= _ <- <-].
    + now intros [= _ <- <-].
    + now intros [= _ <- <-].
  - unfold throw. now intros [= _ <- <-].
Qed.

(** *** [__focus__] *)

Lemma __focus___not_focusable_blurs element previous env :
  isFocusable element = false ->
  activeElement env = Some previous ->
  isFocusable previous = true ->
  __focus__ element env =
    (Return tt, listeners (Blur previous None) env, [Blur previous None]).
Proof.
  intros Hfoc Hactive Hprev.
  assert (previous <> element) as Hne by (intros ->; congruence).
  unfold __focus__, bind, gets, __blur__, dom_effect, ret. cbv beta iota.
  rewrite Hactive, (bool_decide_eq_true_2 _ Hne), Hprev, Hfoc.
  reflexivity.
Qed.

Lemma __focus___not_focusable_idle element env :
  isFocusable element = false ->
  (activeElement env = None \/
   exists a, activeElement env = Some a /\ isFocusable a = false) ->
  __focus__ element env = (Return tt, env, []).
Proof.
  intros Hfoc [Hactive | (a & Hactive & Ha)];
    unfold __focus__, bind, gets, ret; cbv beta iota; rewrite Hactive.
  - now rewrite Hfoc.
  - rewrite Ha, andb_false_r, Hfoc. reflexivity.
Qed.

Lemma __focus___window_unfocused_switch A B env :
  isFocusable B = true ->
  activeElement env = Some A ->
  A <> B ->
  isFocusable A = true ->
  hasFocus env = Some false ->
  __focus__ B env =
    (Return tt,
     listeners (FireEvent B "focusin" None)
       (listeners (FireEvent B "focus" (Some false))
          (listeners (NativeFocus B)
             (set_activeElement (Some B)
                (listeners (Blur A (Some B)) env)))),
     [Blur A (Some B); NativeFocus B;
      FireEvent B "focus" (Some false); FireEvent B "focusin" None]).
Proof.
  intros HB Hactive Hne HA Hwin.
  unfold __focus__, bind, gets, __blur__, native_focus, fireEvent,
    dom_effect, modify, ret. cbv beta iota.
  rewrite Hactive, (bool_decide_eq_true_2 _ Hne), HA, HB. cbn.
  rewrite Hwin. reflexivity.
Qed.

(** *** [settled] *)

Lemma poll_fulfilled_isSettled fuel env r env' :
  poll fuel env = (r, env') ->
  (r = Fulfilled tt /\ isSettled env' = true) \/ r = Pending.
Proof.
  revert env. induction fuel as [| fuel IH]; intros env; cbn.
  - intros [= <- _]. now right.
  - destruct (isSettled (tick env)) eqn:Hs.
    + intros [= <- <-]. now left.
    + apply IH.
Qed.

Lemma poll_first_settled n :
  forall env fuel,
    (forall k, k < n -> isSettled (turns (S k) env) = false) ->
    isSettled (turns (S n) env) = true ->
    n < fuel ->
    poll fuel env = (Fulfilled tt, turns (S n) env).
Proof.
  induction n as [| n IH]; intros env fuel Hbefore Hat Hfuel;
    (destruct fuel as [| fuel]; [lia |]); cbn in *.
  - now rewrite Hat.
  - pose proof (Hbefore 0 ltac:(lia)) as Hfirst. cbn in Hfirst.
    rewrite Hfirst.
    apply IH; [| exact Hat | lia].
    intros k Hk. apply (Hbefore (S k)). lia.
Qed.

Lemma settled_fulfilled_isSettled fuel env r env' t :
  settled fuel env = (r, env', t) ->
  t = [AwaitSettled] /\
  ((r = Fulfilled tt /\ isSettled env' = true) \/ r = Pending).
Proof.
  unfold settled. destruct (poll fuel env) as [r0 env0] eqn:Hpoll.
  intros [= <- <- <-]. split; [reflexivity |].
  exact (poll_fulfilled_isSettled _ _ _ _ Hpoll).
Qed.

(** *** [focus], read backwards from its outcome *)

Lemma focus_stage_return_inv fuel target env q env2 t2 :
  focus_stage fuel target env = (Return q, env2, t2) ->
  exists element,
    truthy target = true /\
    getElement target = Return (Some element) /\
    isFocusable element = true /\
    __focus__ element env = (Return tt, env2, t2) /\
    q = settled fuel.
Proof.
  unfold focus_stage. destruct (truthy target); cbn; [| discriminate].
  destruct (getElement target) as [[element |] | e]; [| discriminate ..].
  destruct (isFocusable element) eqn:Hfoc; cbn; [| discriminate].
  destruct (__focus___returns element env) as (env3 & t3 & Hdom).
  unfold bind. rewrite Hdom. cbn. rewrite app_nil_r.
  intros [= <- <- <-]. now exists element.
Qed.

Lemma focus_promise_fulfilled_iff fuel target env env' t :
  focus_promise fuel target env = (Fulfilled tt, env', t) <->
  exists element env1 t1 env2 t2 env3 t4,
    truthy target = true /\
    getElement target = Return (Some element) /\
    isFocusable element = true /\
    runHooks "focus" "start" target env = (Fulfilled tt, env1, t1) /\
    __focus__ element env1 = (Return tt, env2, t2) /\
    settled fuel env2 = (Fulfilled tt, env3, [AwaitSettled]) /\
    runHooks "focus" "end" target env3 = (Fulfilled tt, env', t4) /\
    t = t1 ++ t2 ++ [AwaitSettled] ++ t4.
Proof.
  split.
  - intros Hrun.
    destruct (runHooks "focus" "start" target env) as [[r1 env1] t1] eqn:Hstart.
    destruct r1 as [[] | e |].
    + destruct (focus_stage fuel target env1) as [[[q | e] env2] t2] eqn:Hstage.
      * destruct (focus_stage_return_inv _ _ _ _ _ _ Hstage)
          as (element & Htruthy & Hget & Hfoc & Hdom & ->).
        destruct (settled fuel env2) as [[r3 env3] t3] eqn:Hsettled.
        rewrite (focus_promise_stage_returns _ _ _ _ _ _ _ _ _ _ _
                   Hstart Hstage Hsettled) in Hrun.
        destruct (settled_fulfilled_isSettled _ _ _ _ _ Hsettled) as [-> Hr3].
        destruct r3 as [[] | e |]; [| discriminate ..].
        destruct (runHooks "focus" "end" target env3) as [[r4 env4] t4] eqn:Hend.
        injection Hrun as -> -> <-.
        now exists element, env1, t1, env2, t2, env3, t4.
      * rewrite (focus_promise_stage_throws _ _ _ _ _ _ _ _ Hstart Hstage) in Hrun.
        discriminate.
    + rewrite (focus_promise_start_rejected _ _ _ _ _ _ Hstart) in Hrun.
      discriminate.
    + rewrite (focus_promise_start_pending _ _ _ _ _ Hstart) in Hrun.
      discriminate.
  - intros (element & env1 & t1 & env2 & t2 & env3 & t4 &
            Htruthy & Hget & Hfoc & Hstart & Hdom & Hsettled & Hend & ->).
    rewrite (focus_promise_stage_returns _ _ _ _ _ _ _ _ _ _ _ Hstart
               (focus_stage_valid fuel _ _ _ _ _ Htruthy Hget Hfoc Hdom) Hsettled).
    now rewrite Hend.
Qed.

Lemma focus_promise_invalid fuel target env env1 t1 :
  runHooks "focus" "start" target env = (Fulfilled tt, env1, t1) ->
  invalid_input target ->
  exists e, focus_promise fuel target env = (Rejected e, env1, t1).
Proof.
  intros Hstart [Hfalsy | [(Htruthy & Hget) | (Htruthy & element & Hget & Hfoc)]].
  - exists (Error msg_missing_target).
    rewrite (focus_promise_stage_throws fuel _ _ _ _ _ _ _ Hstart
               (focus_stage_missing fuel target env1 Hfalsy)).
    now rewrite app_nil_r.
  - exists (Error (msg_not_found target)).
    rewrite (focus_promise_stage_throws fuel _ _ _ _ _ _ _ Hstart
               (focus_stage_not_found fuel target env1 Htruthy Hget)).
    now rewrite app_nil_r.
  - exists (Error (msg_not_focusable element)).
    rewrite (focus_promise_stage_throws fuel _ _ _ _ _ _ _ Hstart
               (focus_stage_not_focusable fuel target env1 element Htruthy Hget Hfoc)).
    now rewrite app_nil_r.
Qed.

(** The guard [!target] reads the empty selector as a missing target: its
    lookup is never attempted. *)
Lemma focus_empty_selector_is_missing_target fuel env env1 t1 :
  runHooks "focus" "start" (TSelector "") env = (Fulfilled tt, env1, t1) ->
  focus_promise fuel (TSelector "") env =
    (Rejected (Error msg_missing_target), env1, t1).
Proof.
  intros Hstart.
  rewrite (focus_promise_stage_throws fuel _ _ _ _ _ _ _ Hstart
             (focus_stage_missing fuel (TSelector "") env1 eq_refl)).
  now rewrite app_nil_r.
Qed.

(** A lookup that throws rejects the promise with what it threw. *)
Lemma focus_lookup_throws_rejects fuel target env env1 t1 e :
  runHooks "focus" "start" target env = (Fulfilled tt, env1, t1) ->
  truthy target = true ->
  getElement target = Throw e ->
  focus_promise fuel target env = (Rejected e, env1, t1).
Proof.
  intros Hstart Htruthy Hget.
  rewrite (focus_promise_stage_throws fuel _ _ _ _ _ _ _ Hstart
             (focus_stage_lookup_throws fuel target env1 e Htruthy Hget)).
  now rewrite app_nil_r.
Qed.

(** *** The claims *)

(** C1, as amended. The promise of [settled()] is fulfilled only in a
    state where [isSettled()] is true, and it is fulfilled at the first
    turn of the run loop after which the application is settled. The
    promise of [focus] is fulfilled after its [end] hooks, which run
    once [settled()] has resolved: the application is settled then
    provided those hooks leave a settled application settled. *)
Theorem settled_resolves_only_when_isSettled :
  (forall fuel env env' t,
      settled fuel env = (Fulfilled tt, env', t) -> isSettled env' = true) /\
  (forall n env fuel,
      (forall k, k < n -> isSettled (turns (S k) env) = false) ->
      isSettled (turns (S n) env) = true ->
      n < fuel ->
      settled fuel env = (Fulfilled tt, turns (S n) env, [AwaitSettled])) /\
  (forall fuel target env env' t,
      focus_promise fuel target env = (Fulfilled tt, env', t) ->
      end_hooks_keep_settled target ->
      isSettled env' = true).
Proof.
  split; [| split].
  - intros fuel env env' t Hrun.
    destruct (settled_fulfilled_isSettled _ _ _ _ _ Hrun) as [_ [[_ Hs] | Hp]];
      [exact Hs | discriminate Hp].
  - intros n env fuel Hbefore Hat Hfuel. unfold settled.
    now rewrite (poll_first_settled n env fuel Hbefore Hat Hfuel).
  - intros fuel target env env' t Hrun Hkeep.
    apply focus_promise_fulfilled_iff in Hrun
      as (element & env1 & t1 & env2 & t2 & env3 & t4 &
          _ & _ & _ & _ & _ & Hsettled & Hend & _).
    apply (Hkeep env3 env' t4); [| exact Hend].
    destruct (settled_fulfilled_isSettled _ _ _ _ _ Hsettled) as [_ [[_ Hs] | Hp]];
      [exact Hs | discriminate Hp].
Qed.

(** C2. When [focus] reaches its DOM mutation for a focusable element
    [B] while another focusable element [A] is [document.activeElement]
    and [document.hasFocus()] is false, [__focus__] first synthesizes a
    blur on [A] with [relatedTarget] [B] and only then focuses [B]; the
    same order shows in the trace of the whole [focus] call. *)
Theorem focus_blurs_previous_element_first fuel target A B env env1 t1 :
  runHooks "focus" "start" target env = (Fulfilled tt, env1, t1) ->
  truthy target = true ->
  getElement target = Return (Some B) ->
  isFocusable B = true ->
  activeElement env1 = Some A ->
  A <> B ->
  isFocusable A = true ->
  hasFocus env1 = Some false ->
  __focus__ B env1 =
    (Return tt,
     listeners (FireEvent B "focusin" None)
       (listeners (FireEvent B "focus" (Some false))
          (listeners (NativeFocus B)
             (set_activeElement (Some B)
                (listeners (Blur A (Some B)) env1)))),
     [Blur A (Some B); NativeFocus B;
      FireEvent B "focus" (Some false); FireEvent B "focusin" None]) /\
  (exists r env' rest,
      focus_promise fuel target env =
        (r, env', t1 ++ Blur A (Some B) :: NativeFocus B :: rest)).
Proof.
  intros Hstart Htruthy Hget HB Hactive Hne HA Hwin.
  pose proof (__focus___window_unfocused_switch A B env1 HB Hactive Hne HA Hwin)
    as Hdom.
  split; [exact Hdom |].
  pose proof (focus_stage_valid fuel _ _ _ _ _ Htruthy Hget HB Hdom) as Hstage.
  match type of Hstage with
  | _ = (_, ?e2, _) =>
      destruct (settled fuel e2) as [[r3 env3] t3] eqn:Hsettled;
      pose proof (focus_promise_stage_returns _ _ _ _ _ _ _ _ _ _ _
                    Hstart Hstage Hsettled) as Hrun
  end.
  rewrite Hrun.
  destruct r3 as [[] | e |].
  - destruct (runHooks "focus" "end" target env3) as [[r4 env4] t4].
    now eexists _, _, _.
  - now eexists _, _, _.
  - now eexists _, _, _.
Qed.

Lemma focus_promise_trace_prefix fuel target env r1 env1 t1 :
  runHooks "focus" "start" target env = (r1, env1, t1) ->
  exists r env' rest, focus_promise fuel target env = (r, env', t1 ++ rest).
Proof.
  intros Hstart. destruct r1 as [[] | e |].
  - destruct (focus_stage fuel target env1) as [[[q | e] env2] t2] eqn:Hstage.
    + destruct (q env2) as [[r3 env3] t3] eqn:Hq.
      rewrite (focus_promise_stage_returns _ _ _ _ _ _ _ _ _ _ _ Hstart Hstage Hq).
      destruct r3 as [[] | e |]; [| now eexists _, _, _ ..].
      destruct (runHooks "focus" "end" target env3) as [[r4 env4] t4].
      now eexists _, _, _.
    + rewrite (focus_promise_stage_throws _ _ _ _ _ _ _ _ Hstart Hstage).
      now eexists _, _, _.
  - rewrite (focus_promise_start_rejected _ _ _ _ _ _ Hstart).
    exists (Rejected e), env1, []. now rewrite app_nil_r.
  - rewrite (focus_promise_start_pending _ _ _ _ _ Hstart).
    exists Pending, env1, []. now rewrite app_nil_r.
Qed.

(** C3. Whatever the target, the first thing a call of [focus] does is
    run the [start] hooks. With an invalid or missing target the call
    ends there, rejected, having run the [start] hooks and nothing
    else. A call is fulfilled exactly when the four steps succeed one
    after the other: the [start] hooks, the checks and [__focus__] on
    the element found, [settled()], and last the [end] hooks; its trace
    is their traces in that order. *)
Theorem focus_runs_its_stages_in_order :
  (forall fuel target env,
      exists r env' rest,
        focus_promise fuel target env =
          (r, env', HooksRun "focus" "start" target :: rest)) /\
  (forall fuel target env env1 t1,
      runHooks "focus" "start" target env = (Fulfilled tt, env1, t1) ->
      invalid_input target ->
      exists e rest,
        t1 = HooksRun "focus" "start" target :: rest /\
        focus_promise fuel target env = (Rejected e, env1, t1)) /\
  (forall fuel target env env' t,
      focus_promise fuel target env = (Fulfilled tt, env', t) <->
      exists element env1 t1 env2 t2 env3 t4,
        truthy target = true /\
        getElement target = Return (Some element) /\
        isFocusable element = true /\
        runHooks "focus" "start" target env = (Fulfilled tt, env1, t1) /\
        __focus__ element env1 = (Return tt, env2, t2) /\
        settled fuel env2 = (Fulfilled tt, env3, [AwaitSettled]) /\
        runHooks "focus" "end" target env3 = (Fulfilled tt, env', t4) /\
        t = t1 ++ t2 ++ [AwaitSettled] ++ t4).
Proof.
  split; [| split].
  - intros fuel target env.
    destruct (runHooks "focus" "start" target env) as [[r1 env1] t1] eqn:Hstart.
    destruct (runHooks_trace _ _ _ _ _ _ _ Hstart) as [t1' ->].
    destruct (focus_promise_trace_prefix fuel _ _ _ _ _ Hstart)
      as (r & env' & rest & Hrun).
    exists r, env', (t1' ++ rest). exact Hrun.
  - intros fuel target env env1 t1 Hstart Hinvalid.
    destruct (focus_promise_invalid fuel _ _ _ _ Hstart Hinvalid) as [e Hrun].
    destruct (runHooks_trace _ _ _ _ _ _ _ Hstart) as [rest Ht1].
    now exists e, rest.
  - intros fuel target env env' t. apply focus_promise_fulfilled_iff.
Qed.

(** C4, as amended. With a [null] or [undefined] target, once the [start]
    hooks have completed, the promise [focus] returns is rejected with the
    error "Must pass an element or selector to `focus`."; the state and the
    trace are those the [start] hooks left. *)
Theorem focus_rejects_missing_target fuel target env env1 t1 :
  target = TNull \/ target = TUndefined ->
  runHooks "focus" "start" target env = (Fulfilled tt, env1, t1) ->
  exists p,
    focus fuel target env = (Return p, env, []) /\
    p env =
      (Rejected (Error "Must pass an element or selector to `focus`."), env1, t1).
Proof.
  intros Htarget Hstart. exists (focus_promise fuel target).
  split; [reflexivity |].
  assert (truthy target = false) as Hfalsy by (destruct Htarget; now subst).
  rewrite (focus_promise_stage_throws fuel _ _ _ _ _ _ _ Hstart
             (focus_stage_missing fuel target env1 Hfalsy)).
  now rewrite app_nil_r.
Qed.

(** C5, as amended. With a target that is not missing (not [null], not
    [undefined]; the guard [!target] also counts the empty selector as
    missing) and whose lookup finds no element, once the [start] hooks
    have completed, the promise [focus] returns is rejected with the error
    "Element not found when calling `focus('<target>')`.", in which a
    selector appears as it was passed. *)
Theorem focus_rejects_unresolved_target fuel target env env1 t1 :
  target <> TNull ->
  target <> TUndefined ->
  target <> TSelector "" ->
  getElement target = Return None ->
  runHooks "focus" "start" target env = (Fulfilled tt, env1, t1) ->
  exists p,
    focus fuel target env = (Return p, env, []) /\
    p env =
      (Rejected
         (Error ("Element not found when calling `focus('"
                 +:+ targetToString target +:+ "')`.")),
       env1, t1) /\
    (forall selector, target = TSelector selector -> targetToString target = selector).
Proof.
  intros Hnull Hundef Hempty Hget Hstart. exists (focus_promise fuel target).
  split; [reflexivity |].
  assert (truthy target = true) as Htruthy.
  { destruct target as [| | selector | element]; cbn; try congruence.
    destruct (String.eqb_spec selector ""); [congruence | reflexivity]. }
  split; [| now intros selector ->].
  rewrite (focus_promise_stage_throws fuel _ _ _ _ _ _ _ Hstart
             (focus_stage_not_found fuel target env1 Htruthy Hget)).
  now rewrite app_nil_r.
Qed.

(** C6, as amended. With a target whose lookup finds an element that is
    not focusable, once the [start] hooks have completed, the promise
    [focus] returns is rejected with the error "<element> is not
    focusable"; the state and the trace are those the [start] hooks left,
    so [__focus__] did not run: the element was neither focused nor sent
    an event. *)
Theorem focus_rejects_unfocusable_target fuel target element env env1 t1 :
  truthy target = true ->
  getElement target = Return (Some element) ->
  isFocusable element = false ->
  runHooks "focus" "start" target env = (Fulfilled tt, env1, t1) ->
  exists p,
    focus fuel target env = (Return p, env, []) /\
    p env =
      (Rejected (Error (elementToString element +:+ " is not focusable")),
       env1, t1).
Proof.
  intros Htruthy Hget Hfoc Hstart. exists (focus_promise fuel target).
  split; [reflexivity |].
  rewrite (focus_promise_stage_throws fuel _ _ _ _ _ _ _ Hstart
             (focus_stage_not_focusable fuel target env1 element Htruthy Hget Hfoc)).
  now rewrite app_nil_r.
Qed.

Lemma focus_promise_invalid_error fuel target env env1 t1 :
  runHooks "focus" "start" target env = (Fulfilled tt, env1, t1) ->
  invalid_input target ->
  exists e,
    validation_error target e /\
    focus_promise fuel target env = (Rejected e, env1, t1).
Proof.
  intros Hstart [Hfalsy | [(Htruthy & Hget) | (Htruthy & element & Hget & Hfoc)]].
  - exists (Error msg_missing_target). split.
    + left. now split.
    + rewrite (focus_promise_stage_throws fuel _ _ _ _ _ _ _ Hstart
                 (focus_stage_missing fuel target env1 Hfalsy)).
      now rewrite app_nil_r.
  - exists (Error (msg_not_found target)). split.
    + right; left. now repeat split.
    + rewrite (focus_promise_stage_throws fuel _ _ _ _ _ _ _ Hstart
                 (focus_stage_not_found fuel target env1 Htruthy Hget)).
      now rewrite app_nil_r.
  - exists (Error (msg_not_focusable element)). split.
    + right; right. split; [exact Htruthy |]. now exists element.
    + rewrite (focus_promise_stage_throws fuel _ _ _ _ _ _ _ Hstart
                 (focus_stage_not_focusable fuel target env1 element Htruthy Hget Hfoc)).
      now rewrite app_nil_r.
Qed.

(** C7, as amended. The call [focus(target)] itself never throws: it
    returns the promise and has done nothing yet. For an invalid input
    (missing target, lookup that finds nothing, element that is not
    focusable) the promise follows the [start] hooks: once they have
    completed it is rejected with the error of that input, in the state
    they left; if one of them fails it is rejected with the error of that
    hook; and as long as one of them has not settled it is pending. *)
Theorem focus_reports_failures_by_rejection fuel target env :
  focus fuel target env = (Return (focus_promise fuel target), env, []) /\
  (forall r1 env1 t1,
      runHooks "focus" "start" target env = (r1, env1, t1) ->
      invalid_input target ->
      match r1 with
      | Fulfilled _ =>
          exists e,
            validation_error target e /\
            focus_promise fuel target env = (Rejected e, env1, t1)
      | Rejected e => focus_promise fuel target env = (Rejected e, env1, t1)
      | Pending => focus_promise fuel target env = (Pending, env1, t1)
      end).
Proof.
  split; [reflexivity |].
  intros r1 env1 t1 Hstart Hinvalid.
  destruct r1 as [[] | e |].
  - now apply focus_promise_invalid_error.
  - now apply focus_promise_start_rejected.
  - now apply focus_promise_start_pending.
Qed.

(** C10. For an element that is not focusable, [__focus__] neither
    focuses it nor fires [focus] or [focusin] on it. If the active
    element is focusable (it is then another element), it is sent a
    synthetic blur with [relatedTarget] [null], and that is all;
    otherwise nothing happens at all. *)
Theorem __focus___skips_unfocusable_element element env :
  isFocusable element = false ->
  __focus__ element env =
    match activeElement env with
    | Some previous =>
        if isFocusable previous
        then (Return tt, listeners (Blur previous None) env, [Blur previous None])
        else (Return tt, env, [])
    | None => (Return tt, env, [])
    end /\
  (forall previous,
      activeElement env = Some previous ->
      isFocusable previous = true ->
      previous <> element).
Proof.
  intros Hfoc. split.
  - destruct (activeElement env) as [previous |] eqn:Hactive.
    + destruct (isFocusable previous) eqn:Hprev.
      * now apply __focus___not_focusable_blurs.
      * apply __focus___not_focusable_idle; [exact Hfoc |].
        right. now exists previous.
    + apply __focus___not_focusable_idle; [exact Hfoc | now left].
  - intros previous _ Hprev ->. congruence.
Qed.

End WithCollaborators.

(** *** The theorems at work on the concrete pages *)

Lemma quietPage_end_hooks_keep_settled target :
  end_hooks_keep_settled (C:=quietPage) target.
Proof.
  intros env env' t Hsettled Hend. cbn in Hend.
  injection Hend as <- _. exact Hsettled.
Qed.

Lemma settled_resolves_only_when_isSettled_witness :
  isSettled (C:=quietPage) (turns (C:=quietPage) 2 env_busy) = true /\
  settled (C:=quietPage) 5 env_busy =
    (Fulfilled tt, turns (C:=quietPage) 2 env_busy, [AwaitSettled]) /\
  isSettled (C:=quietPage)
    (snd (fst (focus_promise (C:=quietPage) 3 (TSelector "#b") env_A_unfocused)))
  = true.
Proof.
  pose proof (settled_resolves_only_when_isSettled (C:=quietPage))
    as (Hsafe & Hlive & Hfocus).
  split; [| split].
  - apply (Hsafe 5 env_busy (turns (C:=quietPage) 2 env_busy) [AwaitSettled]).
    vm_compute. reflexivity.
  - apply (Hlive 1 env_busy 5).
    + intros k Hk. assert (k = 0) as -> by lia. vm_compute. reflexivity.
    + vm_compute. reflexivity.
    + lia.
  - apply (Hfocus 3 (TSelector "#b") env_A_unfocused _
             (snd (focus_promise (C:=quietPage) 3 (TSelector "#b") env_A_unfocused))).
    + vm_compute. reflexivity.
    + apply quietPage_end_hooks_keep_settled.
Defined.

(** C1, as stated, fails: on [hookedPage] the [end] hook of [focus] starts
    a timer after [settled()] has resolved, so the promise of [focus] is
    fulfilled in a state where [isSettled()] is false. *)
Lemma focus_fulfilled_while_unsettled :
  (exists env' t,
      focus_promise (C:=hookedPage) 3 (TSelector "#b") env_A_unfocused =
        (Fulfilled tt, env', t) /\
      isSettled (C:=hookedPage) env' = false) /\
  ~ (forall (C : Collaborators) fuel target env env' t,
        focus_promise fuel target env = (Fulfilled tt, env', t) ->
        isSettled env' = true).
Proof.
  assert (exists env' t,
             focus_promise (C:=hookedPage) 3 (TSelector "#b") env_A_unfocused =
               (Fulfilled tt, env', t) /\
             isSettled (C:=hookedPage) env' = false) as Hex.
  { exists (snd (fst (focus_promise (C:=hookedPage) 3 (TSelector "#b") env_A_unfocused))),
           (snd (focus_promise (C:=hookedPage) 3 (TSelector "#b") env_A_unfocused)).
    split; vm_compute; reflexivity. }
  split; [exact Hex |].
  intros Hclaim. destruct Hex as (env' & t & Hrun & Hunsettled).
  rewrite (Hclaim hookedPage _ _ _ _ _ Hrun) in Hunsettled. discriminate.
Qed.

Lemma focus_blurs_previous_element_first_witness :
  __focus__ (C:=quietPage) inputB env_A_unfocused =
    (Return tt,
     page_listeners (FireEvent inputB "focusin" None)
       (page_listeners (FireEvent inputB "focus" (Some false))
          (page_listeners (NativeFocus inputB)
             (set_activeElement (Some inputB)
                (page_listeners (Blur inputA (Some inputB)) env_A_unfocused)))),
     [Blur inputA (Some inputB); NativeFocus inputB;
      FireEvent inputB "focus" (Some false); FireEvent inputB "focusin" None]) /\
  (exists r env' rest,
      focus_promise (C:=quietPage) 3 (TSelector "#b") env_A_unfocused =
        (r, env',
         [HooksRun "focus" "start" (TSelector "#b"); Log "focus" (TSelector "#b")]
         ++ Blur inputA (Some inputB) :: NativeFocus inputB :: rest)).
Proof.
  apply (focus_blurs_previous_element_first (C:=quietPage)
           3 (TSelector "#b") inputA inputB env_A_unfocused env_A_unfocused
           [HooksRun "focus" "start" (TSelector "#b"); Log "focus" (TSelector "#b")]);
    try reflexivity.
  unfold inputA, inputB. lia.
Defined.

Lemma focus_runs_its_stages_in_order_witness :
  (exists e rest,
      [HooksRun "focus" "start" (TSelector "div"); Log "focus" (TSelector "div")] =
        HooksRun "focus" "start" (TSelector "div") :: rest /\
      focus_promise (C:=quietPage) 3 (TSelector "div") env_A_unfocused =
        (Rejected e, env_A_unfocused,
         [HooksRun "focus" "start" (TSelector "div"); Log "focus" (TSelector "div")])) /\
  (exists element env1 t1 env2 t2 env3 t4,
      truthy (TSelector "#b") = true /\
      getElement (Collaborators:=quietPage) (TSelector "#b") = Return (Some element) /\
      isFocusable (Collaborators:=quietPage) element = true /\
      runHooks (C:=quietPage) "focus" "start" (TSelector "#b") env_A_unfocused =
        (Fulfilled tt, env1, t1) /\
      __focus__ (C:=quietPage) element env1 = (Return tt, env2, t2) /\
      settled (C:=quietPage) 3 env2 = (Fulfilled tt, env3, [AwaitSettled]) /\
      runHooks (C:=quietPage) "focus" "end" (TSelector "#b") env3 =
        (Fulfilled tt,
         snd (fst (focus_promise (C:=quietPage) 3 (TSelector "#b") env_A_unfocused)),
         t4) /\
      snd (focus_promise (C:=quietPage) 3 (TSelector "#b") env_A_unfocused) =
        t1 ++ t2 ++ [AwaitSettled] ++ t4).
Proof.
  pose proof (focus_runs_its_stages_in_order (C:=quietPage))
    as (_ & Hinvalid & Hfulfilled).
  split.
  - apply (Hinvalid 3 (TSelector "div") env_A_unfocused); [reflexivity |].
    right; right. split; [reflexivity |].
    exists plainDiv. split; reflexivity.
  - apply (proj1 (Hfulfilled 3 (TSelector "#b") env_A_unfocused _ _)).
    vm_compute. reflexivity.
Defined.

Lemma focus_rejects_missing_target_witness :
  exists p,
    focus (C:=quietPage) 3 TNull env_idle = (Return p, env_idle, []) /\
    p env_idle =
      (Rejected (Error "Must pass an element or selector to `focus`."),
       env_idle, [HooksRun "focus" "start" TNull; Log "focus" TNull]).
Proof.
  apply (focus_rejects_missing_target (C:=quietPage) 3 TNull env_idle env_idle
           [HooksRun "focus" "start" TNull; Log "focus" TNull]).
  - left. reflexivity.
  - reflexivity.
Defined.

Lemma focus_rejects_unresolved_target_witness :
  exists p,
    focus (C:=quietPage) 3 (TSelector "#nowhere") env_idle = (Return p, env_idle, []) /\
    p env_idle =
      (Rejected
         (Error ("Element not found when calling `focus('"
                 +:+ targetToString (C:=quietPage) (TSelector "#nowhere") +:+ "')`.")),
       env_idle,
       [HooksRun "focus" "start" (TSelector "#nowhere");
        Log "focus" (TSelector "#nowhere")]) /\
    (forall selector,
        TSelector "#nowhere" = TSelector selector ->
        targetToString (C:=quietPage) (TSelector "#nowhere") = selector).
Proof.
  apply (focus_rejects_unresolved_target (C:=quietPage) 3 (TSelector "#nowhere")
           env_idle env_idle
           [HooksRun "focus" "start" (TSelector "#nowhere");
            Log "focus" (TSelector "#nowhere")]);
    try discriminate; reflexivity.
Defined.

Lemma focus_rejects_unfocusable_target_witness :
  exists p,
    focus (C:=quietPage) 3 (TSelector "div") env_A_unfocused =
      (Return p, env_A_unfocused, []) /\
    p env_A_unfocused =
      (Rejected (Error ("[object HTMLDivElement]" +:+ " is not focusable")),
       env_A_unfocused,
       [HooksRun "focus" "start" (TSelector "div"); Log "focus" (TSelector "div")]).
Proof.
  apply (focus_rejects_unfocusable_target (C:=quietPage) 3 (TSelector "div") plainDiv
           env_A_unfocused env_A_unfocused
           [HooksRun "focus" "start" (TSelector "div"); Log "focus" (TSelector "div")]);
    reflexivity.
Defined.

Lemma focus_reports_failures_by_rejection_witness :
  exists e,
    validation_error (C:=quietPage) (TSelector "#nowhere") e /\
    focus_promise (C:=quietPage) 3 (TSelector "#nowhere") env_idle =
      (Rejected e, env_idle,
       [HooksRun "focus" "start" (TSelector "#nowhere");
        Log "focus" (TSelector "#nowhere")]).
Proof.
  apply (proj2 (focus_reports_failures_by_rejection (C:=quietPage)
                  3 (TSelector "#nowhere") env_idle) (Fulfilled tt)).
  - reflexivity.
  - right; left. split; reflexivity.
Defined.

(** C4, as stated, fails: on [throwingPage] a [start] hook throws, the
    second [then] callback is skipped, and the promise of [focus(null)] is
    rejected with the error of the hook. *)
Lemma focus_missing_target_after_failing_start_hook :
  focus_promise (C:=throwingPage) 3 TNull env_idle =
    (Rejected (Error "boom"), env_idle,
     [HooksRun "focus" "start" TNull; Log "focus" TNull]) /\
  ~ (forall (C : Collaborators) fuel target env,
        target = TNull \/ target = TUndefined ->
        exists p env' t,
          focus fuel target env = (Return p, env, []) /\
          p env =
            (Rejected (Error "Must pass an element or selector to `focus`."),
             env', t)).
Proof.
  split; [reflexivity |].
  intros Hclaim.
  destruct (Hclaim throwingPage 3 TNull env_idle (or_introl eq_refl))
    as (p & env' & t & Hcall & Hrun).
  injection Hcall as <-. vm_compute in Hrun. discriminate Hrun.
Qed.

(** C5, as stated, fails: on [throwingPage] the promise of
    [focus('#nowhere')], a selector that finds no element, is rejected
    with the error of the hook. *)
Lemma focus_unresolved_target_after_failing_start_hook :
  focus_promise (C:=throwingPage) 3 (TSelector "#nowhere") env_idle =
    (Rejected (Error "boom"), env_idle,
     [HooksRun "focus" "start" (TSelector "#nowhere");
      Log "focus" (TSelector "#nowhere")]) /\
  ~ (forall (C : Collaborators) fuel target env,
        target <> TNull ->
        target <> TUndefined ->
        target <> TSelector "" ->
        getElement target = Return None ->
        exists p env' t,
          focus fuel target env = (Return p, env, []) /\
          p env =
            (Rejected
               (Error ("Element not found when calling `focus('"
                       +:+ targetToString target +:+ "')`.")),
             env', t)).
Proof.
  split; [reflexivity |].
  intros Hclaim.
  destruct (Hclaim throwingPage 3 (TSelector "#nowhere") env_idle)
    as (p & env' & t & Hcall & Hrun); try discriminate; [reflexivity |].
  injection Hcall as <-. vm_compute in Hrun. discriminate Hrun.
Qed.

(** C6, as stated, fails: on [throwingPage] the promise of [focus('div')],
    a selector that finds an element that is not focusable, is rejected
    with the error of the hook. *)
Lemma focus_unfocusable_target_after_failing_start_hook :
  focus_promise (C:=throwingPage) 3 (TSelector "div") env_idle =
    (Rejected (Error "boom"), env_idle,
     [HooksRun "focus" "start" (TSelector "div"); Log "focus" (TSelector "div")]) /\
  ~ (forall (C : Collaborators) fuel target element env,
        truthy target = true ->
        getElement target = Return (Some element) ->
        isFocusable element = false ->
        exists p env' t,
          focus fuel target env = (Return p, env, []) /\
          p env =
            (Rejected (Error (elementToString element +:+ " is not focusable")),
             env', t)).
Proof.
  split; [reflexivity |].
  intros Hclaim.
  destruct (Hclaim throwingPage 3 (TSelector "div") plainDiv env_idle)
    as (p & env' & t & Hcall & Hrun); try reflexivity.
  injection Hcall as <-. vm_compute in Hrun. discriminate Hrun.
Qed.

(** C7, as stated, fails: on [hangingPage] a [start] hook never settles,
    so however long the observer waits the promise of [focus(null)] is
    pending: the missing target is never reported. *)
Lemma focus_invalid_input_pending_after_hanging_start_hook :
  (forall fuel,
      focus_promise (C:=hangingPage) fuel TNull env_idle =
        (Pending, env_idle, [HooksRun "focus" "start" TNull; Log "focus" TNull])) /\
  ~ (forall (C : Collaborators) target env,
        invalid_input target ->
        exists fuel e env' t,
          focus_promise fuel target env = (Rejected e, env', t)).
Proof.
  assert (forall fuel,
             focus_promise (C:=hangingPage) fuel TNull env_idle =
               (Pending, env_idle, [HooksRun "focus" "start" TNull; Log "focus" TNull]))
    as Hpending by (intros fuel; reflexivity).
  split; [exact Hpending |].
  intros Hclaim.
  destruct (Hclaim hangingPage TNull env_idle) as (fuel & e & env' & t & Hrun).
  - left. reflexivity.
  - rewrite Hpending in Hrun. discriminate Hrun.
Qed.

Lemma __focus___skips_unfocusable_element_witness :
  __focus__ (C:=quietPage) plainDiv env_A_unfocused =
    (Return tt, env_A_unfocused, [Blur inputA None]) /\
  (forall previous,
      activeElement env_A_unfocused = Some previous ->
      isFocusable (Collaborators:=quietPage) previous = true ->
      previous <> plainDiv).
Proof.
  apply (__focus___skips_unfocusable_element (C:=quietPage) plainDiv env_A_unfocused).
  reflexivity.
Defined.

End FocusFacts.

(** * More properties of [setup-onerror.ts] *)

Module OnerrorExtra.
Import Onerror Harness OnerrorRuns.
Local Open Scope exec_scope.

Lemma setupOnerror_run onError s c cached :
  context s = Some c ->
  cachedOnerror s !! c = Some cached ->
  setupOnerror onError s =
    (Return tt,
     set_onerror (match onError with Some f => Some f | None => cached end) s).
Proof.
  intros Hctx Hcache. unfold setupOnerror, bind, getContext, gets, modify.
  rewrite Hctx. cbn. now rewrite Hcache.
Qed.

Lemma setupOnerror_each_run handlers :
  forall s c cached,
    context s = Some c ->
    cachedOnerror s !! c = Some cached ->
    exists current,
      setupOnerror_each handlers s = (Return tt, set_onerror current s) /\
      (handlers = [] -> current = Ember_onerror s).
Proof.
  induction handlers as [| onError rest IH]; intros s c cached Hctx Hcache.
  - exists (Ember_onerror s). split; [| reflexivity]. now destruct s.
  - cbn. unfold bind at 1.
    rewrite (setupOnerror_run onError s c cached Hctx Hcache).
    destruct (IH (set_onerror (match onError with Some f => Some f | None => cached end) s)
                c cached Hctx Hcache) as (current & Hrun & _).
    rewrite Hrun. exists current. split; [reflexivity | discriminate].
Qed.

(** X1. In a prepared context, however many times and with whatever
    arguments [setupOnerror] was called, a following [resetOnerror] puts
    back the handler cached by [_prepareOnerror]: installing handlers never
    writes to the cache. *)
Theorem resetOnerror_undoes_any_setups handlers s c cached :
  context s = Some c ->
  cachedOnerror s !! c = Some cached ->
  (setupOnerror_each handlers ;;; resetOnerror) s = (Return tt, set_onerror cached s).
Proof.
  intros Hctx Hcache.
  destruct (setupOnerror_each_run handlers s c cached Hctx Hcache)
    as (current & Hrun & _).
  unfold bind. rewrite Hrun. unfold resetOnerror.
  now rewrite (setupOnerror_run None (set_onerror current s) c cached Hctx Hcache).
Qed.

Lemma resetOnerror_undoes_any_setups_witness :
  (setupOnerror_each [Some 3; None; Some 4] ;;; resetOnerror) nested =
    (Return tt, set_onerror (Some 8) nested).
Proof.
  apply (resetOnerror_undoes_any_setups [Some 3; None; Some 4] nested 2 (Some 8));
    reflexivity.
Defined.

(** X2. The life of a test is a round trip: in a context that has no entry
    yet, [_prepareOnerror], then any calls of [setupOnerror], then
    [_cleanupOnerror] give back exactly the state before, [Ember.onerror]
    and the entries of every other context included. *)
Theorem prepare_setups_cleanup_round_trip handlers s c :
  context s = Some c ->
  cachedOnerror s !! c = None ->
  (_prepareOnerror c ;;; setupOnerror_each handlers ;;; _cleanupOnerror c) s =
    (Return tt, s).
Proof.
  intros Hctx Hnone.
  unfold bind at 1. unfold _prepareOnerror at 1, bind, gets, modify. cbn.
  rewrite Hnone.
  set (s1 := set_cache (<[c := Ember_onerror s]> (cachedOnerror s)) s).
  assert (cachedOnerror s1 !! c = Some (Ember_onerror s)) as Hcache
      by apply lookup_insert_eq.
  destruct (setupOnerror_each_run handlers s1 c (Ember_onerror s) Hctx Hcache)
    as (current & Hrun & _).
  rewrite Hrun. unfold _cleanupOnerror, bind, resetOnerror.
  rewrite (setupOnerror_run None (set_onerror current s1) c (Ember_onerror s) Hctx Hcache).
  unfold modify. cbn. rewrite (delete_insert_id _ _ _ Hnone).
  now destruct s.
Qed.

Lemma prepare_setups_cleanup_round_trip_witness :
  (_prepareOnerror 1 ;;; setupOnerror_each [Some 3; Some 4] ;;; _cleanupOnerror 1)
    unprepared = (Return tt, unprepared).
Proof.
  apply (prepare_setups_cleanup_round_trip [Some 3; Some 4] unprepared 1);
    reflexivity.
Defined.

Lemma _prepareOnerror_run s c :
  cachedOnerror s !! c = None ->
  _prepareOnerror c s =
    (Return tt, set_cache (<[c := Ember_onerror s]> (cachedOnerror s)) s).
Proof.
  intros Hnone. unfold _prepareOnerror, bind, gets, modify. cbn.
  now rewrite Hnone.
Qed.

Lemma _prepareOnerror_again s c cached :
  cachedOnerror s !! c = Some cached ->
  _prepareOnerror c s = (Throw (Error msg_prepare_twice), s).
Proof.
  intros Hsome. unfold _prepareOnerror, bind, gets, throw. cbn.
  now rewrite Hsome.
Qed.

Lemma _cleanupOnerror_run s current c cached :
  context s = Some current ->
  cachedOnerror s !! current = Some cached ->
  _cleanupOnerror c s =
    (Return tt, set_cache (delete c (cachedOnerror s)) (set_onerror cached s)).
Proof.
  intros Hctx Hcache. unfold _cleanupOnerror, bind, resetOnerror.
  now rewrite (setupOnerror_run None s current cached Hctx Hcache).
Qed.

(** X3. [_prepareOnerror] succeeds for a context exactly when the map has
    no entry for it. Called twice in a row it throws the second time and
    keeps what the first call cached; this holds as well when the handler
    cached is [undefined], because the test is [Map.has], not the value. *)
Theorem _prepareOnerror_once_per_context :
  (forall s c,
      (exists s', _prepareOnerror c s = (Return tt, s')) <->
      cachedOnerror s !! c = None) /\
  (forall s c,
      cachedOnerror s !! c = None ->
      (_prepareOnerror c ;;; _prepareOnerror c) s =
        (Throw (Error "_prepareOnerror should only be called once per-context"),
         set_cache (<[c := Ember_onerror s]> (cachedOnerror s)) s)).
Proof.
  split.
  - intros s c. split.
    + intros [s' Hrun]. destruct (cachedOnerror s !! c) as [cached |] eqn:Hcache;
        [| reflexivity].
      rewrite (_prepareOnerror_again s c cached Hcache) in Hrun. discriminate.
    + intros Hnone. eexists. now apply _prepareOnerror_run.
  - intros s c Hnone. unfold bind. rewrite (_prepareOnerror_run s c Hnone).
    apply (_prepareOnerror_again _ c (Ember_onerror s)). apply lookup_insert_eq.
Qed.

Lemma _prepareOnerror_once_per_context_witness :
  (exists s', _prepareOnerror 1 unprepared = (Return tt, s')) /\
  (_prepareOnerror 1 ;;; _prepareOnerror 1) unprepared =
    (Throw (Error "_prepareOnerror should only be called once per-context"),
     set_cache (<[1 := Some 7]> ∅) unprepared).
Proof.
  split.
  - apply (proj1 _prepareOnerror_once_per_context unprepared 1). reflexivity.
  - apply (proj2 _prepareOnerror_once_per_context unprepared 1). reflexivity.
Defined.

(** X4. A call that throws has changed nothing: each of the four exported
    functions throws before its first write, [_cleanupOnerror] included (its
    [resetOnerror] fails before the entry is deleted). The only errors are
    the three usage errors of the file. *)
Theorem failed_call_changes_nothing call s e s' :
  run_call call s = (Throw e, s') ->
  s' = s /\
  (e = Error "Must setup test context before calling setupOnerror" \/
   e = Error "_cacheOriginalOnerror must be called before setupOnerror. Normally, this will happen as part of your test harness." \/
   e = Error "_prepareOnerror should only be called once per-context").
Proof.
  assert (forall onError,
             setupOnerror onError s = (Throw e, s') ->
             s' = s /\ (e = Error msg_no_context \/ e = Error msg_not_cached))
    as Hsetup.
  { intros onError. unfold setupOnerror, bind, getContext, gets, modify, throw. cbn.
    destruct (context s) as [c |]; cbn.
    - destruct (cachedOnerror s !! c) as [cached |]; [discriminate |].
      intros [= <- <-]. auto.
    - intros [= <- <-]. auto. }
  destruct call as [onError | | c | c]; cbn [run_call]; unfold resetOnerror.
  - intros Hrun. destruct (Hsetup _ Hrun) as [-> [-> | ->]]; auto.
  - intros Hrun. destruct (Hsetup _ Hrun) as [-> [-> | ->]]; auto.
  - unfold _prepareOnerror, bind, gets, modify, throw. cbn.
    destruct (cachedOnerror s !! c); [| discriminate].
    intros [= <- <-]. auto.
  - unfold _cleanupOnerror, bind, resetOnerror.
    destruct (setupOnerror None s) as [[[] | e0] s0] eqn:Hreset; [discriminate |].
    intros [= -> ->]. destruct (Hsetup _ Hreset) as [-> [-> | ->]]; auto.
Qed.

Lemma failed_call_changes_nothing_witness :
  outside_test = outside_test /\
  (Error msg_no_context = Error "Must setup test context before calling setupOnerror" \/
   Error msg_no_context = Error "_cacheOriginalOnerror must be called before setupOnerror. Normally, this will happen as part of your test harness." \/
   Error msg_no_context = Error "_prepareOnerror should only be called once per-context").
Proof.
  apply (failed_call_changes_nothing (CallCleanupOnerror 1) outside_test
           (Error msg_no_context) outside_test).
  reflexivity.
Defined.

(** X5. [_cleanupOnerror(context)] restores [Ember.onerror] from the entry
    of the current context, the one [getContext()] returns, and deletes the
    entry of its argument. When the two differ, the current context keeps
    its entry and the argument's cached handler is dropped unused. *)
Theorem _cleanupOnerror_restores_from_current_context s current c cached :
  context s = Some current ->
  cachedOnerror s !! current = Some cached ->
  exists s',
    _cleanupOnerror c s = (Return tt, s') /\
    Ember_onerror s' = cached /\
    cachedOnerror s' !! c = None /\
    (c <> current -> cachedOnerror s' !! current = Some cached) /\
    context s' = context s.
Proof.
  intros Hctx Hcache. eexists.
  split; [now apply (_cleanupOnerror_run s current c cached) |].
  cbn. split; [reflexivity |]. split; [apply lookup_delete_eq |].
  split; [| reflexivity].
  intros Hne. now rewrite lookup_delete_ne.
Qed.

Lemma _cleanupOnerror_restores_from_current_context_witness :
  exists s',
    _cleanupOnerror 1 nested = (Return tt, s') /\
    Ember_onerror s' = Some 8 /\
    cachedOnerror s' !! 1 = None /\
    (1 <> 2 -> cachedOnerror s' !! 2 = Some (Some 8)) /\
    context s' = context nested.
Proof.
  apply (_cleanupOnerror_restores_from_current_context nested 2 1 (Some 8));
    reflexivity.
Defined.

(** X6. Once its context is cleaned up, [setupOnerror] throws again until
    [_prepareOnerror] has run; and cleaning the current context up and
    preparing it anew comes to the same as one [resetOnerror]. *)
Theorem cleanup_then_prepare_is_reset s c cached :
  context s = Some c ->
  cachedOnerror s !! c = Some cached ->
  (_cleanupOnerror c ;;; _prepareOnerror c) s = resetOnerror s /\
  (forall onError,
      exists s',
        (_cleanupOnerror c ;;; setupOnerror onError) s =
          (Throw (Error "_cacheOriginalOnerror must be called before setupOnerror. Normally, this will happen as part of your test harness."), s') /\
        Ember_onerror s' = cached /\
        cachedOnerror s' !! c = None).
Proof.
  intros Hctx Hcache. split.
  - unfold bind. rewrite (_cleanupOnerror_run s c c cached Hctx Hcache).
    rewrite _prepareOnerror_run by apply lookup_delete_eq.
    unfold resetOnerror. rewrite (setupOnerror_run None s c cached Hctx Hcache).
    cbn. unfold set_cache, set_onerror. cbn.
    now rewrite (insert_delete_id _ _ _ Hcache).
  - intros onError. eexists. split.
    + unfold bind. rewrite (_cleanupOnerror_run s c c cached Hctx Hcache).
      unfold setupOnerror, bind, getContext, gets, throw. cbn.
      rewrite Hctx. cbn. now rewrite lookup_delete_eq.
    + cbn. split; [reflexivity | apply lookup_delete_eq].
Qed.

Lemma cleanup_then_prepare_is_reset_witness :
  (_cleanupOnerror 2 ;;; _prepareOnerror 2) nested = resetOnerror nested /\
  (forall onError,
      exists s',
        (_cleanupOnerror 2 ;;; setupOnerror onError) nested =
          (Throw (Error "_cacheOriginalOnerror must be called before setupOnerror. Normally, this will happen as part of your test harness."), s') /\
        Ember_onerror s' = Some 8 /\
        cachedOnerror s' !! 2 = None).
Proof.
  apply (cleanup_then_prepare_is_reset nested 2 (Some 8)); reflexivity.
Defined.

(** X7. No exported function changes what [getContext()] returns, and none
    writes an entry of the cache other than the one of the context it is
    given: [setupOnerror] and [resetOnerror] leave the whole cache as it
    is. *)
Theorem calls_write_only_their_own_entry call s r s' :
  run_call call s = (r, s') ->
  context s' = context s /\
  (forall c', call_key call <> Some c' ->
              cachedOnerror s' !! c' = cachedOnerror s !! c') /\
  (call_key call = None -> cachedOnerror s' = cachedOnerror s).
Proof.
  assert (forall onError r0 s0,
             setupOnerror onError s = (r0, s0) ->
             context s0 = context s /\ cachedOnerror s0 = cachedOnerror s)
    as Hsetup.
  { intros onError r0 s0.
    unfold setupOnerror, bind, getContext, gets, modify, throw. cbn.
    destruct (context s) as [c |] eqn:Hctx; cbn.
    - destruct (cachedOnerror s !! c) as [cached |];
        intros [= <- <-]; cbn; now rewrite Hctx.
    - intros [= <- <-]. now rewrite Hctx. }
  destruct call as [onError | | c | c]; cbn [run_call]; unfold resetOnerror.
  - intros Hrun. destruct (Hsetup _ _ _ Hrun) as [-> ->]. auto.
  - intros Hrun. destruct (Hsetup _ _ _ Hrun) as [-> ->]. auto.
  - unfold _prepareOnerror, bind, gets, modify, throw. cbn.
    destruct (cachedOnerror s !! c); intros [= <- <-]; cbn.
    + split; [reflexivity |]. split; [reflexivity | discriminate].
    + split; [reflexivity |]. split; [| discriminate].
      intros c' Hne. apply lookup_insert_ne. congruence.
  - unfold _cleanupOnerror, bind, resetOnerror, modify.
    destruct (setupOnerror None s) as [[[] | e0] s0] eqn:Hreset;
      destruct (Hsetup _ _ _ Hreset) as [Hc Hm]; intros [= <- <-]; cbn.
    + split; [exact Hc |]. split; [| discriminate].
      intros c' Hne. rewrite lookup_delete_ne by congruence. now rewrite Hm.
    + split; [exact Hc |]. split; [| discriminate].
      intros c' _. now rewrite Hm.
Qed.

Lemma calls_write_only_their_own_entry_witness :
  context (snd (run_call (CallCleanupOnerror 2) nested)) = context nested /\
  (forall c', call_key (CallCleanupOnerror 2) <> Some c' ->
              cachedOnerror (snd (run_call (CallCleanupOnerror 2) nested)) !! c' =
                cachedOnerror nested !! c') /\
  (call_key (CallCleanupOnerror 2) = None ->
   cachedOnerror (snd (run_call (CallCleanupOnerror 2) nested)) = cachedOnerror nested).
Proof.
  apply (calls_write_only_their_own_entry (CallCleanupOnerror 2) nested
           (fst (run_call (CallCleanupOnerror 2) nested))).
  now destruct (run_call (CallCleanupOnerror 2) nested).
Defined.

End OnerrorExtra.

(** * More properties of [dom/focus.ts] *)

Module FocusExtra.
Import DomFocus Pages FocusNotions HookPages FocusFacts.

(** Case analysis on everything [__focus__] reads. *)
Ltac focus_cases element env :=
  let a := fresh "a" in
  let Hactive := fresh "Hactive" in
  let Hother := fresh "Hother" in
  let Hprev := fresh "Hprev" in
  let Hfoc := fresh "Hfoc" in
  let Hwin := fresh "Hwin" in
  destruct (activeElement env) as [a |] eqn:Hactive;
  [destruct (bool_decide (a <> element)) eqn:Hother;
   destruct (isFocusable a) eqn:Hprev |];
  destruct (isFocusable element) eqn:Hfoc;
  destruct (hasFocus env) as [[] |] eqn:Hwin;
  unfold __focus__, bind, gets, __blur__, native_focus, fireEvent,
    dom_effect, modify, ret;
  cbv beta iota;
  rewrite ?Hactive; cbv beta iota;
  rewrite ?Hother, ?Hprev, ?Hfoc; cbn;
  rewrite ?Hwin; cbn.

(** Membership in a trace that is written out. *)
Ltac in_trace :=
  repeat match goal with
         | H : In _ _ |- _ => cbn in H
         | H : _ \/ _ |- _ => destruct H
         | H : False |- _ => destruct H
         | H : @eq Effect _ _ |- _ => first [discriminate H | injection H as ? ?; subst | injection H as ? ? ?; subst | injection H as ?; subst]
         end.

Section WithCollaborators.
Context `{C : Collaborators}.

(** X8. When the window has focus, or [document.hasFocus] does not exist,
    [__focus__] on a focusable element does nothing but call
    [element.focus()]: whatever element was focused before, no blur and no
    [focus] or [focusin] event is synthesized. *)
Theorem __focus___when_window_has_focus element env :
  isFocusable element = true ->
  browserIsNotFocused env = false ->
  __focus__ element env =
    (Return tt,
     listeners (NativeFocus element) (set_activeElement (Some element) env),
     [NativeFocus element]).
Proof.
  intros Hfocusable Hwindow. unfold browserIsNotFocused in Hwindow.
  focus_cases element env; try congruence; try discriminate; reflexivity.
Qed.

(** X9. When the window does not have focus and there is nothing to blur
    (no active element, or the active element is the target itself, or it
    is not focusable), [__focus__] on a focusable element calls
    [element.focus()] and then fires [focus] (not bubbling) and [focusin],
    in this order, and no blur: focusing the element that already holds
    the focus does not blur it. *)
Theorem __focus___with_nothing_to_blur element env :
  isFocusable element = true ->
  hasFocus env = Some false ->
  (activeElement env = None \/
   activeElement env = Some element \/
   exists a, activeElement env = Some a /\ isFocusable a = false) ->
  __focus__ element env =
    (Return tt,
     listeners (FireEvent element "focusin" None)
       (listeners (FireEvent element "focus" (Some false))
          (listeners (NativeFocus element)
             (set_activeElement (Some element) env))),
     [NativeFocus element;
      FireEvent element "focus" (Some false); FireEvent element "focusin" None]).
Proof.
  intros Hfocusable Hwindow Hnothing.
  focus_cases element env; try congruence; try reflexivity.
  all: destruct Hnothing as [Hn | [Hn | (b & Hn & Hb)]]; try congruence.
  all: try (injection Hn as ->; apply bool_decide_eq_true in Hother; congruence).
Qed.

(** X10. What [__focus__] never does. It blurs no element but the active
    one, and only when that is another, focusable element; the
    [relatedTarget] is the target when the target is focusable (and then
    the window is without focus) and [null] when it is not. It calls
    [focus()] on its target only, and only when the target is focusable. It
    fires events on its target only, when the target is focusable and the
    window without focus, and these are [focus] with [bubbles: false] and
    [focusin] without options. *)
Theorem __focus___effects_are_sound element env r env' t :
  __focus__ element env = (r, env', t) ->
  (forall x relatedTarget,
      In (Blur x relatedTarget) t ->
      activeElement env = Some x /\ x <> element /\ isFocusable x = true /\
      relatedTarget = (if isFocusable element then Some element else None) /\
      (isFocusable element = true -> hasFocus env = Some false)) /\
  (forall x, In (NativeFocus x) t -> x = element /\ isFocusable element = true) /\
  (forall x type bubbles,
      In (FireEvent x type bubbles) t ->
      x = element /\ isFocusable element = true /\ hasFocus env = Some false /\
      ((type = "focus" /\ bubbles = Some false) \/
       (type = "focusin" /\ bubbles = None))).
Proof.
  focus_cases element env; intros [= <- <- <-];
    (split; [| split]); intros; in_trace;
    try apply bool_decide_eq_true in Hother;
    repeat split; auto; try congruence; try discriminate.
Qed.

(** X11. After [__focus__] on a focusable element, that element is the
    active element, provided the listeners of [element.focus()] and of the
    [focus] and [focusin] events do not move the focus themselves; what the
    blur of the element focused before did to the focus does not matter. *)
Theorem __focus___makes_target_active element env r env' t :
  focus_listeners_keep_activeElement ->
  isFocusable element = true ->
  __focus__ element env = (r, env', t) ->
  activeElement env' = Some element.
Proof.
  intros Hkeep Hfocusable.
  assert (forall x e0, activeElement (listeners (NativeFocus x) e0) = activeElement e0)
    as Hnative by (intros x e0; apply (Hkeep x e0)).
  assert (forall x type bubbles e0,
             activeElement (listeners (FireEvent x type bubbles) e0) = activeElement e0)
    as Hfire by (intros x type bubbles e0; apply (Hkeep x e0)).
  focus_cases element env; try congruence; intros [= <- <- <-];
    rewrite ?Hfire, ?Hnative; reflexivity.
Qed.

Lemma runHooks_start_logs target env :
  exists r env1 rest,
    runHooks "focus" "start" target env =
      (r, env1, HooksRun "focus" "start" target :: Log "focus" target :: rest).
Proof.
  unfold runHooks, registeredHooks. cbn.
  destruct (run_in_order (userHooks "focus" "start") target env) as [[r env1] rest].
  now exists r, env1, rest.
Qed.

(** X12. The hook the module registers when it is loaded runs first: the
    first thing every call of [focus] does, whatever the target and
    whatever hooks the test registered, is to log the helper name and the
    target. *)
Theorem focus_logs_its_target_first fuel target env :
  exists r env' rest,
    focus_promise fuel target env =
      (r, env', HooksRun "focus" "start" target :: Log "focus" target :: rest).
Proof.
  destruct (runHooks_start_logs target env) as (r1 & env1 & t1 & Hstart).
  destruct (focus_promise_trace_prefix fuel _ _ _ _ _ Hstart)
    as (r & env' & rest & Hrun).
  exists r, env', (t1 ++ rest). exact Hrun.
Qed.

(** X13. Every way [focus] is rejected. Either a [start] hook failed, and
    then nothing else was done; or the [start] hooks ran and the target was
    refused (missing, lookup that threw, nothing found, element not
    focusable), and then nothing else was done either; or everything up to
    [settled()] succeeded, the element is focused, and an [end] hook
    failed. *)
Theorem focus_rejection_causes fuel target env e env' t :
  focus_promise fuel target env = (Rejected e, env', t) <->
  runHooks "focus" "start" target env = (Rejected e, env', t) \/
  (runHooks "focus" "start" target env = (Fulfilled tt, env', t) /\
   ((truthy target = false /\
     e = Error "Must pass an element or selector to `focus`.") \/
    (truthy target = true /\ getElement target = Throw e) \/
    (truthy target = true /\ getElement target = Return None /\
     e = Error (msg_not_found target)) \/
    (truthy target = true /\
     exists element,
       getElement target = Return (Some element) /\
       isFocusable element = false /\
       e = Error (msg_not_focusable element)))) \/
  (exists element env1 t1 env2 t2 env3 t4,
      truthy target = true /\
      getElement target = Return (Some element) /\
      isFocusable element = true /\
      runHooks "focus" "start" target env = (Fulfilled tt, env1, t1) /\
      __focus__ element env1 = (Return tt, env2, t2) /\
      settled fuel env2 = (Fulfilled tt, env3, [AwaitSettled]) /\
      runHooks "focus" "end" target env3 = (Rejected e, env', t4) /\
      t = t1 ++ t2 ++ [AwaitSettled] ++ t4).
Proof.
  split.
  - intros Hrun.
    destruct (runHooks "focus" "start" target env) as [[r1 env1] t1] eqn:Hstart.
    destruct r1 as [[] | e1 |].
    + destruct (focus_stage fuel target env1) as [[[q | e2] env2] t2] eqn:Hstage.
      * right; right.
        destruct (focus_stage_return_inv _ _ _ _ _ _ Hstage)
          as (element & Htruthy & Hget & Hfoc & Hdom & ->).
        destruct (settled fuel env2) as [[r3 env3] t3] eqn:Hsettled.
        rewrite (focus_promise_stage_returns _ _ _ _ _ _ _ _ _ _ _
                   Hstart Hstage Hsettled) in Hrun.
        destruct (settled_fulfilled_isSettled _ _ _ _ _ Hsettled) as [-> Hr3].
        destruct r3 as [[] | e3 |].
        -- destruct (runHooks "focus" "end" target env3) as [[r4 env4] t4] eqn:Hend.
           injection Hrun as -> -> <-.
           now exists element, env1, t1, env2, t2, env3, t4.
        -- destruct Hr3 as [[Hr3 _] | Hr3]; discriminate Hr3.
        -- discriminate Hrun.
      * right; left.
        destruct (focus_stage_throw_inert _ _ _ _ _ _ Hstage) as [-> ->].
        rewrite (focus_promise_stage_throws _ _ _ _ _ _ _ _ Hstart Hstage) in Hrun.
        rewrite app_nil_r in Hrun. injection Hrun as <- <- <-.
        split; [reflexivity |].
        destruct (truthy target) eqn:Htruthy.
        -- right. destruct (getElement target) as [[element |] | e3] eqn:Hget.
           ++ destruct (isFocusable element) eqn:Hfoc.
              ** destruct (__focus___returns element env1) as (env3 & t3 & Hdom).
                 rewrite (focus_stage_valid fuel _ _ _ _ _ Htruthy Hget Hfoc Hdom)
                   in Hstage.
                 discriminate Hstage.
              ** rewrite (focus_stage_not_focusable fuel _ _ _ Htruthy Hget Hfoc)
                   in Hstage.
                 injection Hstage as <-. right; right. split; [reflexivity |].
                 now exists element.
           ++ rewrite (focus_stage_not_found fuel _ _ Htruthy Hget) in Hstage.
              injection Hstage as <-. right; left. now split.
           ++ rewrite (focus_stage_lookup_throws fuel _ _ _ Htruthy Hget) in Hstage.
              injection Hstage as <-. left. now split.
        -- rewrite (focus_stage_missing fuel _ _ Htruthy) in Hstage.
           injection Hstage as <-. now left.
    + left. now rewrite (focus_promise_start_rejected _ _ _ _ _ _ Hstart) in Hrun.
    + rewrite (focus_promise_start_pending _ _ _ _ _ Hstart) in Hrun. discriminate.
  - intros [Hstart | [[Hstart Hcause] | Hend]].
    + now apply focus_promise_start_rejected.
    + assert (focus_stage fuel target env' = (Throw e, env', [])) as Hstage.
      { destruct Hcause as [[Hfalsy ->] | [[Htruthy Hget] |
            [(Htruthy & Hget & ->) | (Htruthy & element & Hget & Hfoc & ->)]]].
        - now apply focus_stage_missing.
        - now apply focus_stage_lookup_throws.
        - now apply focus_stage_not_found.
        - now apply focus_stage_not_focusable. }
      rewrite (focus_promise_stage_throws _ _ _ _ _ _ _ _ Hstart Hstage).
      now rewrite app_nil_r.
    + destruct Hend as (element & env1 & t1 & env2 & t2 & env3 & t4 &
                        Htruthy & Hget & Hfoc & Hstart & Hdom & Hsettled & Hend & ->).
      rewrite (focus_promise_stage_returns _ _ _ _ _ _ _ _ _ _ _ Hstart
                 (focus_stage_valid fuel _ _ _ _ _ Htruthy Hget Hfoc Hdom) Hsettled).
      now rewrite Hend.
Qed.

Lemma poll_unsettled fuel :
  forall env,
    (forall k, k < fuel -> isSettled (turns (S k) env) = false) ->
    poll fuel env = (Pending, turns fuel env).
Proof.
  induction fuel as [| fuel IH]; intros env Hunsettled; cbn; [reflexivity |].
  pose proof (Hunsettled 0 ltac:(lia)) as Hfirst. cbn in Hfirst. rewrite Hfirst.
  apply IH. intros k Hk. apply (Hunsettled (S k)). lia.
Qed.

(** X14. [focus] does not resolve while the application is unsettled: with
    a valid target, if the application is unsettled after each of the
    [fuel] turns of the run loop that follow the DOM mutation, the promise
    is still pending and the [end] hooks have not run. *)
Theorem focus_pending_while_unsettled fuel target element env env1 t1 env2 t2 :
  truthy target = true ->
  getElement target = Return (Some element) ->
  isFocusable element = true ->
  runHooks "focus" "start" target env = (Fulfilled tt, env1, t1) ->
  __focus__ element env1 = (Return tt, env2, t2) ->
  (forall k, k < fuel -> isSettled (turns (S k) env2) = false) ->
  focus_promise fuel target env =
    (Pending, turns fuel env2, t1 ++ t2 ++ [AwaitSettled]).
Proof.
  intros Htruthy Hget Hfoc Hstart Hdom Hunsettled.
  assert (settled fuel env2 = (Pending, turns fuel env2, [AwaitSettled])) as Hsettled.
  { unfold settled. now rewrite (poll_unsettled fuel env2 Hunsettled). }
  now rewrite (focus_promise_stage_returns _ _ _ _ _ _ _ _ _ _ _ Hstart
                 (focus_stage_valid fuel _ _ _ _ _ Htruthy Hget Hfoc Hdom) Hsettled).
Qed.

(** X15. [focus] resolves once the application settles: with a valid
    target, if the application is first settled [n + 1] turns of the run
    loop after the DOM mutation, then for every observer that waits longer
    than [n] turns the promise ends as the [end] hooks end, run in that
    settled state; the outcome does not depend on how much longer the
    observer waits. *)
Theorem focus_resolves_once_settled n fuel target element
    env env1 t1 env2 t2 r4 env4 t4 :
  truthy target = true ->
  getElement target = Return (Some element) ->
  isFocusable element = true ->
  runHooks "focus" "start" target env = (Fulfilled tt, env1, t1) ->
  __focus__ element env1 = (Return tt, env2, t2) ->
  (forall k, k < n -> isSettled (turns (S k) env2) = false) ->
  isSettled (turns (S n) env2) = true ->
  runHooks "focus" "end" target (turns (S n) env2) = (r4, env4, t4) ->
  n < fuel ->
  focus_promise fuel target env = (r4, env4, t1 ++ t2 ++ [AwaitSettled] ++ t4).
Proof.
  intros Htruthy Hget Hfoc Hstart Hdom Hbefore Hat Hend Hfuel.
  assert (settled fuel env2 = (Fulfilled tt, turns (S n) env2, [AwaitSettled]))
    as Hsettled.
  { unfold settled. now rewrite (poll_first_settled n env2 fuel Hbefore Hat Hfuel). }
  rewrite (focus_promise_stage_returns _ _ _ _ _ _ _ _ _ _ _ Hstart
             (focus_stage_valid fuel _ _ _ _ _ Htruthy Hget Hfoc Hdom) Hsettled).
  now rewrite Hend.
Qed.

(** X16. When the test registered no [start] hook for [focus], a call with
    an invalid input (missing target, nothing found, element not
    focusable) is rejected and has changed nothing: the state is the one
    before the call and the only thing done is the log. *)
Theorem focus_invalid_input_changes_nothing fuel target env :
  userHooks "focus" "start" = [] ->
  invalid_input target ->
  exists e,
    focus_promise fuel target env =
      (Rejected e, env, [HooksRun "focus" "start" target; Log "focus" target]).
Proof.
  intros Hnone Hinvalid. apply focus_promise_invalid; [| exact Hinvalid].
  unfold runHooks, registeredHooks. cbn. now rewrite Hnone.
Qed.

(** X17. When the test registered no [end] hook for [focus], the
    application is settled in the state in which the promise of [focus] is
    fulfilled, and the last things done were to await [settled()] and to
    run the (empty) [end] hooks. *)
Theorem focus_settled_without_end_hooks fuel target env env' t :
  userHooks "focus" "end" = [] ->
  focus_promise fuel target env = (Fulfilled tt, env', t) ->
  isSettled env' = true /\
  exists before, t = before ++ [AwaitSettled; HooksRun "focus" "end" target].
Proof.
  intros Hnone Hrun.
  apply focus_promise_fulfilled_iff in Hrun
    as (element & env1 & t1 & env2 & t2 & env3 & t4 &
        _ & _ & _ & _ & _ & Hsettled & Hend & ->).
  revert Hend. unfold runHooks, registeredHooks. cbn. rewrite Hnone. cbn.
  intros [= <- <-].
  destruct (settled_fulfilled_isSettled _ _ _ _ _ Hsettled) as [_ [[_ Hs] | Hp]];
    [| discriminate Hp].
  split; [exact Hs |].
  exists (t1 ++ t2). now rewrite <- app_assoc.
Qed.

End WithCollaborators.

(** *** The theorems at work on the concrete pages *)

Lemma blurringPage_focus_listeners_keep_activeElement :
  focus_listeners_keep_activeElement (C:=blurringPage).
Proof.
  intros x env. split; [reflexivity |].
  intros type bubbles. cbn.
  destruct (String.eqb type "focusin"); reflexivity.
Qed.

Lemma __focus___when_window_has_focus_witness :
  __focus__ (C:=quietPage) inputB env_A_focused =
    (Return tt,
     page_listeners (NativeFocus inputB) (set_activeElement (Some inputB) env_A_focused),
     [NativeFocus inputB]).
Proof.
  apply (__focus___when_window_has_focus (C:=quietPage) inputB env_A_focused);
    reflexivity.
Defined.

Lemma __focus___with_nothing_to_blur_witness :
  __focus__ (C:=quietPage) inputB env_B_unfocused =
    (Return tt,
     page_listeners (FireEvent inputB "focusin" None)
       (page_listeners (FireEvent inputB "focus" (Some false))
          (page_listeners (NativeFocus inputB)
             (set_activeElement (Some inputB) env_B_unfocused))),
     [NativeFocus inputB;
      FireEvent inputB "focus" (Some false); FireEvent inputB "focusin" None]).
Proof.
  apply (__focus___with_nothing_to_blur (C:=quietPage) inputB env_B_unfocused);
    [reflexivity | reflexivity |].
  right; left. reflexivity.
Defined.

Lemma __focus___effects_are_sound_witness :
  (forall x relatedTarget,
      In (Blur x relatedTarget) (snd (__focus__ (C:=quietPage) inputB env_A_unfocused)) ->
      activeElement env_A_unfocused = Some x /\ x <> inputB /\
      isFocusable (Collaborators:=quietPage) x = true /\
      relatedTarget =
        (if isFocusable (Collaborators:=quietPage) inputB then Some inputB else None) /\
      (isFocusable (Collaborators:=quietPage) inputB = true ->
       hasFocus env_A_unfocused = Some false)) /\
  (forall x,
      In (NativeFocus x) (snd (__focus__ (C:=quietPage) inputB env_A_unfocused)) ->
      x = inputB /\ isFocusable (Collaborators:=quietPage) inputB = true) /\
  (forall x type bubbles,
      In (FireEvent x type bubbles)
         (snd (__focus__ (C:=quietPage) inputB env_A_unfocused)) ->
      x = inputB /\ isFocusable (Collaborators:=quietPage) inputB = true /\
      hasFocus env_A_unfocused = Some false /\
      ((type = "focus" /\ bubbles = Some false) \/
       (type = "focusin" /\ bubbles = None))).
Proof.
  apply (__focus___effects_are_sound (C:=quietPage) inputB env_A_unfocused
           (Return tt)
           (snd (fst (__focus__ (C:=quietPage) inputB env_A_unfocused)))).
  reflexivity.
Defined.

Lemma __focus___makes_target_active_witness :
  activeElement (snd (fst (__focus__ (C:=blurringPage) inputB env_A_unfocused))) =
    Some inputB.
Proof.
  apply (__focus___makes_target_active (C:=blurringPage) inputB env_A_unfocused
           (Return tt) _
           (snd (__focus__ (C:=blurringPage) inputB env_A_unfocused))).
  - apply blurringPage_focus_listeners_keep_activeElement.
  - reflexivity.
  - reflexivity.
Defined.

Lemma focus_rejection_causes_witness :
  focus_promise (C:=quietPage) 3 (TSelector "div") env_A_unfocused =
    (Rejected (Error (msg_not_focusable (C:=quietPage) plainDiv)), env_A_unfocused,
     [HooksRun "focus" "start" (TSelector "div"); Log "focus" (TSelector "div")]).
Proof.
  apply (proj2 (focus_rejection_causes (C:=quietPage) 3 (TSelector "div")
                  env_A_unfocused _ _ _)).
  right; left. split; [reflexivity |].
  right; right; right. split; [reflexivity |].
  exists plainDiv. repeat split; reflexivity.
Defined.

Lemma focus_pending_while_unsettled_witness :
  focus_promise (C:=quietPage) 2 (TSelector "#b") env_A_busy =
    (Pending,
     turns (C:=quietPage) 2 (snd (fst (__focus__ (C:=quietPage) inputB env_A_busy))),
     [HooksRun "focus" "start" (TSelector "#b"); Log "focus" (TSelector "#b")]
     ++ snd (__focus__ (C:=quietPage) inputB env_A_busy) ++ [AwaitSettled]).
Proof.
  apply (focus_pending_while_unsettled (C:=quietPage) 2 (TSelector "#b") inputB
           env_A_busy env_A_busy
           [HooksRun "focus" "start" (TSelector "#b"); Log "focus" (TSelector "#b")]
           (snd (fst (__focus__ (C:=quietPage) inputB env_A_busy)))
           (snd (__focus__ (C:=quietPage) inputB env_A_busy))); try reflexivity.
  intros k Hk. destruct k as [| [| k]]; [vm_compute; reflexivity .. | lia].
Defined.

Lemma focus_resolves_once_settled_witness :
  focus_promise (C:=quietPage) 5 (TSelector "#b") env_A_busy =
    (Fulfilled tt,
     turns (C:=quietPage) 3 (snd (fst (__focus__ (C:=quietPage) inputB env_A_busy))),
     [HooksRun "focus" "start" (TSelector "#b"); Log "focus" (TSelector "#b")]
     ++ snd (__focus__ (C:=quietPage) inputB env_A_busy) ++ [AwaitSettled]
     ++ [HooksRun "focus" "end" (TSelector "#b")]).
Proof.
  apply (focus_resolves_once_settled (C:=quietPage) 2 5 (TSelector "#b") inputB
           env_A_busy env_A_busy
           [HooksRun "focus" "start" (TSelector "#b"); Log "focus" (TSelector "#b")]
           (snd (fst (__focus__ (C:=quietPage) inputB env_A_busy)))
           (snd (__focus__ (C:=quietPage) inputB env_A_busy))); try reflexivity.
  - intros k Hk. destruct k as [| [| k]]; [vm_compute; reflexivity .. | lia].
  - lia.
Defined.

Lemma focus_invalid_input_changes_nothing_witness :
  exists e,
    focus_promise (C:=quietPage) 3 (TSelector "#nowhere") env_A_unfocused =
      (Rejected e, env_A_unfocused,
       [HooksRun "focus" "start" (TSelector "#nowhere");
        Log "focus" (TSelector "#nowhere")]).
Proof.
  apply (focus_invalid_input_changes_nothing (C:=quietPage) 3 (TSelector "#nowhere")
           env_A_unfocused); [reflexivity |].
  right; left. split; reflexivity.
Defined.

Lemma focus_settled_without_end_hooks_witness :
  isSettled (C:=quietPage)
    (snd (fst (focus_promise (C:=quietPage) 3 (TSelector "#b") env_A_unfocused)))
  = true /\
  exists before,
    snd (focus_promise (C:=quietPage) 3 (TSelector "#b") env_A_unfocused) =
      before ++ [AwaitSettled; HooksRun "focus" "end" (TSelector "#b")].
Proof.
  apply (focus_settled_without_end_hooks (C:=quietPage) 3 (TSelector "#b")
           env_A_unfocused); [reflexivity |].
  vm_compute. reflexivity.
Defined.

End FocusExtra.
